(** * Teacher ranking by mean score: a model of [index.py]

    The script reads every sheet of a workbook as a headerless grid, takes
    row 0 of a sheet as the teacher names, folds the remaining rows into one
    score list per teacher across all sheets, averages, sorts by mean
    (descending), numbers the rows and writes the table to a new workbook.

    Modelling choices.
    - A number in a cell (a Python [int] or [float]) is held by its value, an
      exact rational [Qc].  Python's arithmetic on the scores is not worked
      out here: what [sum] and [/] return, rounding and overflow included, is
      the environment of the function (the class [Arithmetic]).
    - A text is held as its UTF-8 bytes.
    - A cell is [None] (pandas' NaN) or a value: a number or a text.
    - The dictionary [all_teachers_scores] is an association list in
      insertion order, as a Python [dict] iterates.
    - What the pandas calls [read_excel], [sort_values] and [to_excel] do at
      run time is the environment of the function: they are variables of the
      section [Ranking]. *)

From Stdlib Require Import QArith Qcanon Ascii.
From stdpp Require Import base option list strings pretty numbers sorting.

Local Open Scope string_scope.
Local Open Scope list_scope.

(** ** Cells and frames *)

Inductive value :=
  | Number (x : Qc)
  | Text (s : string).

Global Instance value_eq_dec : EqDecision value.
Proof. solve_decision. Defined.

(** [None] is an empty cell (NaN). *)
Abbreviation cell := (option value).

(** A [DataFrame] read with [header=None]: the list of its rows, each row the
    list of its cells.  pandas frames are rectangular: every row has the
    length of row 0 (a cell missing from a shorter row reads as NaN). *)
Definition DataFrame := list (list cell).

(** [df.empty]: one of the two axes has length zero. *)
Definition df_empty (df : DataFrame) : bool :=
  match df with
  | [] => true
  | r :: _ => bool_decide (length r = 0)
  end.

(** [df.iloc[0].tolist()] and [df.iloc[1:]]. *)
Definition iloc_0 (df : DataFrame) : list cell := hd [] df.
Definition iloc_1_ (df : DataFrame) : DataFrame := tl df.

(** The column at position [j] of a block of rows. *)
Definition column (j : nat) (rows : DataFrame) : list cell :=
  (λ r, from_option id None (r !! j)) <$> rows.

(** [Series.dropna().tolist()]: the non-empty cells, in row order. *)
Definition dropna (xs : list cell) : list value := omap id xs.

(** ** Name sanitization (lines 50-53) *)

(** [str.strip] removes the code points that are white space for Python:
    U+0009-U+000D, U+001C-U+0020, U+0085, U+00A0, U+1680, U+2000-U+200A,
    U+2028, U+2029, U+202F, U+205F and U+3000.  In UTF-8 they take one, two
    or three bytes. *)
Definition byte (a : Ascii.ascii) : nat := Ascii.nat_of_ascii a.

(** U+0009-U+000D and U+001C-U+0020. *)
Definition isspace (a : Ascii.ascii) : bool :=
  let n := Ascii.nat_of_ascii a in
  (((9 <=? n) && (n <=? 13)) || ((28 <=? n) && (n <=? 32)))%nat.

(** U+0085 and U+00A0: the bytes C2 85 and C2 A0. *)
Definition isspace2 (a b : Ascii.ascii) : bool :=
  ((byte a =? 194) && ((byte b =? 133) || (byte b =? 160)))%nat.

(** U+1680: E1 9A 80.  U+2000-U+200A, U+2028, U+2029, U+202F: E2 80 and
    80-8A, A8, A9, AF.  U+205F: E2 81 9F.  U+3000: E3 80 80. *)
Definition isspace3 (a b c : Ascii.ascii) : bool :=
  (((byte a =? 225) && ((byte b =? 154) && (byte c =? 128)))
   || ((byte a =? 226) && ((byte b =? 128) &&
         (((128 <=? byte c) && (byte c <=? 138))
          || (byte c =? 168) || (byte c =? 169) || (byte c =? 175))))
   || ((byte a =? 226) && ((byte b =? 129) && (byte c =? 159)))
   || ((byte a =? 227) && ((byte b =? 128) && (byte c =? 128))))%nat.

(** Dropping the leading code points that [ws1], [ws2] or [ws3] accept. *)
Fixpoint lstrip_by (ws1 : Ascii.ascii → bool) (ws2 : Ascii.ascii → Ascii.ascii → bool)
    (ws3 : Ascii.ascii → Ascii.ascii → Ascii.ascii → bool) (s : string) : string :=
  match s with
  | EmptyString => EmptyString
  | String a s1 =>
      if ws1 a then lstrip_by ws1 ws2 ws3 s1
      else
        match s1 with
        | EmptyString => s
        | String b s2 =>
            if ws2 a b then lstrip_by ws1 ws2 ws3 s2
            else
              match s2 with
              | EmptyString => s
              | String c s3 =>
                  if ws3 a b c then lstrip_by ws1 ws2 ws3 s3 else s
              end
        end
  end.

Definition lstrip (s : string) : string :=
  lstrip_by isspace isspace2 isspace3 s.

(** The trailing white space is the leading one of the reversed bytes, each
    code point with its bytes in reverse. *)
Definition rstrip (s : string) : string :=
  String.rev
    (lstrip_by isspace (λ a b, isspace2 b a) (λ a b c, isspace3 c b a)
       (String.rev s)).

Definition strip (s : string) : string := rstrip (lstrip s).

(** [str(name).strip() != ''].  The text of a number has a digit in it and is
    never blank. *)
Definition not_blank (v : value) : bool :=
  match v with
  | Number _ => true
  | Text s => negb (String.eqb (strip s) "")
  end.

(** [f'Unnamed_Teacher_{i}'] *)
Definition placeholder (i : nat) : value :=
  Text ("Unnamed_Teacher_" +:+ pretty i).

(** [name if pd.notna(name) and str(name).strip() != '' else placeholder] *)
Definition clean_name (i : nat) (name : cell) : value :=
  match name with
  | Some v => if not_blank v then v else placeholder i
  | None => placeholder i
  end.

Definition cleaned_teacher_names (teacher_names_on_sheet : list cell)
  : list value :=
  imap clean_name teacher_names_on_sheet.

(** ** Exceptions *)

Inductive exn := AttributeError | KeyError | TypeError.

(** A computation returns or raises. *)
Inductive outcome (A : Type) :=
  | Ret (a : A)
  | Raise (e : exn).
Arguments Ret {A} a.
Arguments Raise {A} e.

Global Instance outcome_ret : MRet outcome := @Ret.
Global Instance outcome_bind : MBind outcome := λ A B f m,
  match m with
  | Ret a => f a
  | Raise e => Raise e
  end.

(** A [for] loop that threads a state and stops at the first exception. *)
Fixpoint for_each {A S : Type} (body : A → S → outcome S) (xs : list A) (s : S)
  : outcome S :=
  match xs with
  | [] => Ret s
  | x :: xs' => s' ← body x s; for_each body xs' s'
  end.

(** ** Selecting a column by label (line 61) *)

(** The positions of the columns labelled [label]. *)
Definition positions (columns : list value) (label : value) : list nat :=
  filter (λ j, columns !! j = Some label) (seq 0 (length columns)).

(** [df[label]] is a [Series] when one column carries the label and a
    [DataFrame] of all the columns that carry it when several do. *)
Inductive selection :=
  | Series (xs : list cell)
  | SubFrame (cols : list (list cell)).

Definition getitem (columns : list value) (rows : DataFrame) (label : value)
  : outcome selection :=
  match positions columns label with
  | [] => Raise KeyError
  | [j] => Ret (Series (column j rows))
  | js => Ret (SubFrame ((λ j, column j rows) <$> js))
  end.

(** [.dropna().tolist()]: a [DataFrame] has no attribute [tolist]. *)
Definition dropna_tolist (sel : selection) : outcome (list value) :=
  match sel with
  | Series xs => Ret (dropna xs)
  | SubFrame _ => Raise AttributeError
  end.

(** ** The dictionary [all_teachers_scores] *)

Definition dict := list (value * list value).

Fixpoint dict_get (k : value) (d : dict) : option (list value) :=
  match d with
  | [] => None
  | (k', v) :: d' => if decide (k' = k) then Some v else dict_get k d'
  end.

(** [k in d] *)
Definition dict_contains (k : value) (d : dict) : bool :=
  bool_decide (is_Some (dict_get k d)).

(** [d[k]] *)
Definition dict_getitem (k : value) (d : dict) : outcome (list value) :=
  match dict_get k d with
  | Some v => Ret v
  | None => Raise KeyError
  end.

(** [d[k] = v]: an existing key keeps its place, a new one goes last. *)
Fixpoint dict_setitem (k : value) (v : list value) (d : dict) : dict :=
  match d with
  | [] => [(k, v)]
  | (k', v') :: d' =>
      if decide (k' = k) then (k', v) :: d' else (k', v') :: dict_setitem k v d'
  end.

Definition keys (d : dict) : list value := fst <$> d.

(** ** The body of the loop over the teachers of a sheet (lines 57-66) *)

Definition add_teacher (columns : list value) (scores_only_df : DataFrame)
    (teacher_name : value) (all_teachers_scores : dict) : outcome dict :=
  sel ← getitem columns scores_only_df teacher_name;
  current_teacher_scores ← dropna_tolist sel;
  let d :=
    if dict_contains teacher_name all_teachers_scores
    then all_teachers_scores
    else dict_setitem teacher_name [] all_teachers_scores in
  old ← dict_getitem teacher_name d;
  mret (dict_setitem teacher_name (old ++ current_teacher_scores) d).

(** A sheet that is not empty (lines 39-66). *)
Definition add_sheet (df : DataFrame) (all_teachers_scores : dict)
  : outcome dict :=
  let teacher_names_on_sheet := iloc_0 df in
  let scores_only_df := iloc_1_ df in
  let cleaned := cleaned_teacher_names teacher_names_on_sheet in
  for_each (add_teacher cleaned scores_only_df) cleaned all_teachers_scores.

(** ** Means (lines 73-79) *)

(** What Python's arithmetic on scores returns: a finite number, or the
    infinity of a float that overflowed.  Scores are finite, so no NaN
    arises. *)
Inductive pynum :=
  | Finite (x : Qc)
  | PosInf
  | NegInf.

(** Python's builtins on numbers, the environment of line 76.
    [py_sum teacher xs] is what [sum(scores)] returns for the scores of
    [teacher], of values [xs]: an [int] or a [float], rounded as Python does.
    Whether a score is held as an [int] or as a [float] depends on the
    columns it was read from and can change the rounding, so the sum is not
    taken as a function of the values alone.  [py_truediv s n] is [s / n]. *)
Class Arithmetic := {
  py_sum : value → list Qc → pynum;
  py_truediv : pynum → nat → pynum
}.

(** The numbers of a score list; [None] when a text is among them. *)
Fixpoint numbers (scores : list value) : option (list Qc) :=
  match scores with
  | [] => Some []
  | Number x :: rest => cons x <$> numbers rest
  | Text _ :: _ => None
  end.

Section Means.

Context {arith : Arithmetic}.

(** [sum(scores)]: [0 + x0 + x1 + ...]; a number plus a text is a
    [TypeError]. *)
Definition sum_scores (teacher : value) (scores : list value) : outcome pynum :=
  match numbers scores with
  | Some xs => Ret (py_sum teacher xs)
  | None => Raise TypeError
  end.

Definition teacher_average (entry : value * list value)
  : outcome (value * pynum) :=
  let '(teacher, scores) := entry in
  match scores with
  | [] => Ret (teacher, Finite 0%Qc)
  | _ :: _ =>
      s ← sum_scores teacher scores;
      mret (teacher, py_truediv s (length scores))
  end.

(** The mean of a teacher whose scores are the numbers [xs]. *)
Definition mean_of (teacher : value) (xs : list Qc) : pynum :=
  match xs with
  | [] => Finite 0%Qc
  | _ :: _ => py_truediv (py_sum teacher xs) (length xs)
  end.

Fixpoint teacher_avg_scores (items : dict) : outcome (list (value * pynum)) :=
  match items with
  | [] => Ret []
  | entry :: rest =>
      row ← teacher_average entry;
      rows ← teacher_avg_scores rest;
      mret (row :: rows)
  end.

End Means.

(** ** The rating table (lines 82-88) *)

Record ranking_row := { Teacher : value; Mean_Score : pynum; Rank : nat }.

(** [rating_df['Rank'] = rating_df.index + 1] after [reset_index]. *)
Definition add_rank (rows : list (value * pynum)) : list ranking_row :=
  imap (λ i r, {| Teacher := r.1; Mean_Score := r.2; Rank := i + 1 |}) rows.

(** The order of the means. *)
Definition pynum_le (a b : pynum) : Prop :=
  match a, b with
  | NegInf, _ => True
  | _, PosInf => True
  | Finite x, Finite y => (x <= y)%Qc
  | _, _ => False
  end.

Global Instance pynum_le_dec : RelDecision pynum_le.
Proof. intros [x| |] [y| |]; cbn; apply _. Defined.

(** Descending by mean: a row stands before the rows whose mean is not
    larger. *)
Definition by_mean_desc (a b : value * pynum) : Prop := pynum_le b.2 a.2.

Global Instance by_mean_desc_dec : RelDecision by_mean_desc.
Proof. intros a b. unfold by_mean_desc. apply _. Defined.

Definition descending (rows : list (value * pynum)) : Prop :=
  StronglySorted by_mean_desc rows.

(** ** Console, files and the run *)

(** The lines the function prints. *)
Inductive message :=
  | InputNotFound (input_excel_path : string)      (* line 22 *)
  | InputReadError (e : string)                    (* line 25 *)
  | EmptySheetWarning (sheet_name : string)        (* line 33 *)
  | NoData                                         (* line 69 *)
  | Saved (output_excel_path : string)             (* line 93 *)
  | OutputWriteError (e : string).                 (* line 96 *)

(** What the run leaves behind: the console and the files it wrote. *)
Record world := {
  console : list message;
  files : list (string * list ranking_row)
}.

Definition start : world := {| console := []; files := [] |}.

(** A computation with effects on the world that returns or raises. *)
Definition M (A : Type) : Type := world → world * outcome A.

Global Instance M_ret : MRet M := λ A a w, (w, Ret a).
Global Instance M_bind : MBind M := λ A B f m w,
  match m w with
  | (w', Ret a) => f a w'
  | (w', Raise e) => (w', Raise e)
  end.

Definition print (m : message) : M unit := λ w,
  ({| console := console w ++ [m]; files := files w |}, Ret tt).

Definition write_file (path : string) (table : list ranking_row) : M unit := λ w,
  ({| console := console w; files := files w ++ [(path, table)] |}, Ret tt).

Definition lift {A : Type} (m : outcome A) : M A := λ w, (w, m).

(** A workbook: the sheets in order, each with its name. *)
Definition workbook := list (string * DataFrame).

(** What [pd.read_excel(path, sheet_name=None, header=None)] does. *)
Inductive read_result :=
  | FileNotFoundError
  | ReadException (e : string)
  | Sheets (all_sheets_data : workbook).

(** Lines 31-66: one sheet, then all of them. *)
Definition process_sheet (sheet : string * DataFrame) (all_teachers_scores : dict)
  : M dict :=
  let '(sheet_name, df) := sheet in
  if df_empty df
  then print (EmptySheetWarning sheet_name);; mret all_teachers_scores
  else lift (add_sheet df all_teachers_scores).

Fixpoint process_sheets (all_sheets_data : workbook) (all_teachers_scores : dict)
  : M dict :=
  match all_sheets_data with
  | [] => mret all_teachers_scores
  | sheet :: rest =>
      d ← process_sheet sheet all_teachers_scores;
      process_sheets rest d
  end.

Definition default_output_excel_path : string := "рейтинг_вчителів.xlsx".

Section Ranking.

(** The environment: Python's arithmetic, reading the input, sorting a frame
    by its mean column ([ascending=False]), and writing the output ([None]:
    written; [Some e]: the exception [e] was raised). *)
Context {arith : Arithmetic}.
Variable read_excel : string → read_result.
Variable sort_values : list (value * pynum) → list (value * pynum).
Variable to_excel : string → list ranking_row → option string.

(** Lines 68-97, from the filled dictionary on. *)
Definition rank_and_export (all_teachers_scores : dict)
    (output_excel_path : string) : M bool :=
  match all_teachers_scores with
  | [] => print NoData;; mret false
  | _ :: _ =>
      avg ← lift (teacher_avg_scores all_teachers_scores);
      let rating_df := add_rank (sort_values avg) in
      match to_excel output_excel_path rating_df with
      | None =>
          write_file output_excel_path rating_df;;
          print (Saved output_excel_path);;
          mret true
      | Some e => print (OutputWriteError e);; mret false
      end
  end.

Definition create_teacher_ranking_excel
    (input_excel_path output_excel_path : string) : M bool :=
  match read_excel input_excel_path with
  | FileNotFoundError => print (InputNotFound input_excel_path);; mret false
  | ReadException e => print (InputReadError e);; mret false
  | Sheets all_sheets_data =>
      all_teachers_scores ← process_sheets all_sheets_data [];
      rank_and_export all_teachers_scores output_excel_path
  end.

End Ranking.

(** ** A concrete environment

    stdpp's merge sort meets the contract of [sort_values]; it is used to run
    the function on examples. *)

Definition merge_sort_desc (rows : list (value * pynum))
  : list (value * pynum) :=
  merge_sort by_mean_desc rows.

(** An arithmetic without rounding: Python's on scores whose sums and means
    are floats. *)
Definition exact_sum (xs : list Qc) : Qc := foldr Qcplus 0%Qc xs.

Definition exact_truediv (s : pynum) (n : nat) : pynum :=
  match s with
  | Finite x => Finite (x / Qc_of_Z (Z.of_nat n))%Qc
  | PosInf => PosInf
  | NegInf => NegInf
  end.

Definition exact_arithmetic : Arithmetic :=
  {| py_sum _ xs := Finite (exact_sum xs); py_truediv := exact_truediv |}.

(** An input directory: what reading gives at each path it lists; any other
    path does not resolve.  And a disk that accepts every write. *)
Definition read_from (dir : list (string * read_result)) (path : string)
  : read_result :=
  match list_find (λ f, f.1 = path) dir with
  | Some (_, (_, content)) => content
  | None => FileNotFoundError
  end.

Definition always_writes (path : string) (table : list ranking_row)
  : option string := None.

Definition num (z : Z) : cell := Some (Number (Qc_of_Z z)).
Definition txt (s : string) : cell := Some (Text s).

(** Running the function on a single workbook stored at ["in.xlsx"]. *)
Definition one_workbook (wb : workbook) : string → read_result :=
  read_from [("in.xlsx", Sheets wb)].

Definition run_on (wb : workbook) : world * outcome bool :=
  create_teacher_ranking_excel (arith := exact_arithmetic) (one_workbook wb)
    merge_sort_desc always_writes "in.xlsx" "out.xlsx" start.

(** A table with its means as reduced fractions, to read results. *)
Definition fraction (m : pynum) : option Q :=
  match m with
  | Finite x => Some (this x)
  | _ => None
  end.

Definition as_fractions (table : list ranking_row)
  : list (value * option Q * nat) :=
  (λ r, (Teacher r, fraction (Mean_Score r), Rank r)) <$> table.

(** Example workbooks. *)
Definition alice_and_bob : workbook :=
  [("9-A", [[txt "Alice"; txt "Bob"]; [num 5; num 9]; [num 7; None]])].

Definition alice_twice : workbook :=
  [("9-A", [[txt "Alice"; txt "Alice"]; [num 5; num 9]])].

Definition only_an_empty_sheet : workbook := [("9-A", [])].

Definition two_sheets : workbook :=
  [("9-A", [[txt "Alice"; txt "Bob"]; [num 5; num 9]; [num 7; None]]);
   ("9-B", [[txt "Bob"; txt "Alice"]; [num 10; num 3]])].

(** ** Notions the statements use *)

(** The score list of [k] in the dictionary, empty for a key that is not
    there. *)
Definition scores_of (k : value) (d : dict) : list value :=
  default [] (dict_get k d).

(** The teacher keys of a sheet; an empty sheet is skipped and has none. *)
Definition sheet_names (df : DataFrame) : list value :=
  if df_empty df then [] else cleaned_teacher_names (iloc_0 df).

(** The non-empty cells, in row order, of the columns labelled [k]. *)
Definition labelled_scores (columns : list value) (rows : DataFrame) (k : value)
  : list value :=
  concat ((λ j, dropna (column j rows)) <$> positions columns k).

(** What a sheet contributes to teacher [k]: the non-empty score cells, in
    row order, of the columns whose key is [k]. *)
Definition sheet_scores (k : value) (df : DataFrame) : list value :=
  labelled_scores (sheet_names df) (iloc_1_ df) k.

(** What a workbook contributes to teacher [k]: the contributions of its
    sheets, in sheet order. *)
Definition workbook_scores (k : value) (wb : workbook) : list value :=
  concat ((λ sheet, sheet_scores k sheet.2) <$> wb).

(** The step of the dictionary for one teacher of a sheet: the entry of [k],
    made on first encounter, grows by [xs] at its end. *)
Definition extend_scores (k : value) (xs : list value) (d : dict) : dict :=
  dict_setitem k (scores_of k d ++ xs) d.

Definition sheet_step (columns : list value) (rows : DataFrame)
    (d : dict) (k : value) : dict :=
  extend_scores k (labelled_scores columns rows k) d.

(** The dictionary after a sheet, and after a workbook, when no exception is
    raised. *)
Definition aggregate_sheet (d : dict) (df : DataFrame) : dict :=
  foldl (sheet_step (sheet_names df) (iloc_1_ df)) d (sheet_names df).

Definition aggregate (wb : workbook) (d : dict) : dict :=
  foldl aggregate_sheet d (snd <$> wb).

(** The world after more lines on the console. *)
Definition log (ms : list message) (w : world) : world :=
  {| console := console w ++ ms; files := files w |}.

(** The world after a table was saved. *)
Definition saved (w : world) (output : string) (table : list ranking_row)
  : world :=
  {| console := console w ++ [Saved output];
     files := files w ++ [(output, table)] |}.

(** The warnings of a workbook: one per empty sheet, in sheet order. *)
Definition warnings (wb : workbook) : list message :=
  omap (λ sheet : string * DataFrame,
          if df_empty sheet.2 then Some (EmptySheetWarning sheet.1) else None) wb.

(** The keys in the order of their first encounter. *)
Definition add_key (ks : list value) (k : value) : list value :=
  if decide (k ∈ ks) then ks else ks ++ [k].

Definition first_seen (names : list value) : list value := foldl add_key [] names.

Definition all_names (wb : workbook) : list value :=
  concat ((λ sheet, sheet_names sheet.2) <$> wb).

(** A row-0 cell that the sanitization replaces. *)
Definition blank (name : cell) : Prop :=
  match name with
  | Some v => not_blank v = false
  | None => True
  end.

Definition is_number (v : value) : Prop :=
  match v with
  | Number _ => True
  | Text _ => False
  end.

(** A byte of a text. *)
Fixpoint occurs (u : Ascii.ascii) (s : string) : bool :=
  match s with
  | String a s' => if Ascii.eqb a u then true else occurs u s'
  | EmptyString => false
  end.

(** The spec's rule for what a column appends, for a reading [coercible] of
    its "numeric-coercible": the cells of the column that are present and
    coercible, and no other. *)
Definition appends_coercible_cells (coercible : value → bool) : Prop :=
  ∀ df d d' j k,
    add_sheet df d = Ret d' →
    cleaned_teacher_names (iloc_0 df) !! j = Some k →
    ∃ appended,
      scores_of k d' = scores_of k d ++ appended ∧
      ∀ v, v ∈ appended ↔ Some v ∈ column j (iloc_1_ df) ∧ coercible v = true.

(** The spec's rule that the columns of a sheet never share a key. *)
Definition columns_have_distinct_keys : Prop :=
  ∀ (teacher_names_on_sheet : list cell) i j ki kj,
    i ≠ j →
    cleaned_teacher_names teacher_names_on_sheet !! i = Some ki →
    cleaned_teacher_names teacher_names_on_sheet !! j = Some kj →
    ki ≠ kj.

(** A score cell that is empty or a number. *)
Definition numeric_or_empty (c : cell) : Prop :=
  match c with
  | Some (Text _) => False
  | _ => True
  end.

Global Instance numeric_or_empty_dec c : Decision (numeric_or_empty c).
Proof. destruct c as [[x|s]|]; cbn; apply _. Defined.

(** An input on which every stage goes through: the keys of a sheet are
    pairwise distinct and no score cell holds a text. *)
Definition valid_sheet (df : DataFrame) : Prop :=
  NoDup (sheet_names df) ∧
  ∀ r c, r ∈ iloc_1_ df → c ∈ r → numeric_or_empty c.

(** A workbook without the sheets the loop skips. *)
Definition non_empty_sheets (wb : list (string * DataFrame)) : workbook :=
  filter (λ sheet : string * DataFrame, df_empty sheet.2 = false) wb.

(** The outcome of the loop over the sheets, the console left aside. *)
Definition sheets_outcome (wb : workbook) (d : dict) : outcome dict :=
  for_each (λ (sheet : string * DataFrame) d,
              if df_empty sheet.2 then Ret d else add_sheet sheet.2 d) wb d.

(** ** The script (lines 100-115)

    The function is called on two fixed paths; after [True] the script reads
    the file it has just written and prints it, or the error of that read;
    after [False] it prints that no ranking was made. *)

Definition input_file : string := "оцінки_вчителів.xlsx".
Definition output_file : string := "рейтинг_вчителів_за_середнім.xlsx".

(** What [pd.read_excel(output_file)] does. *)
Inductive read_back_result :=
  | Generated (generated_rating : DataFrame)
  | ReadBackException (e : string).

(** The lines of the script itself; they come after those of the function. *)
Inductive script_line :=
  | ContentHeader                                  (* line 108 *)
  | Content (generated_rating : DataFrame)         (* line 111 *)
  | ContentReadError (e : string)                  (* line 113 *)
  | NoRanking.                                     (* line 115 *)

Section Script.

Context {arith : Arithmetic}.
Variable read_excel : string → read_result.
Variable sort_values : list (value * pynum) → list (value * pynum).
Variable to_excel : string → list ranking_row → option string.
Variable read_back : string → read_back_result.

Definition main (w : world) : world * list script_line * outcome unit :=
  match create_teacher_ranking_excel read_excel sort_values to_excel
          input_file output_file w with
  | (w', Ret true) =>
      let shown :=
        match read_back output_file with
        | Generated generated_rating => Content generated_rating
        | ReadBackException e => ContentReadError e
        end in
      (w', [ContentHeader; shown], Ret tt)
  | (w', Ret false) => (w', [NoRanking], Ret tt)
  | (w', Raise e) => (w', [], Raise e)
  end.

End Script.

(** More of a concrete environment: a disk that refuses every write, a
    workbook with a text among the scores, the workbook of the script, and a
    read of the written file that fails. *)
Definition never_writes (e : string) (path : string) (table : list ranking_row)
  : option string := Some e.

Definition alice_with_text : workbook :=
  [("9-A", [[txt "Alice"]; [num 5]; [txt "abc"]])].

Definition script_workbook : string → read_result :=
  read_from [(input_file, Sheets alice_and_bob)].

Definition cannot_read_back (path : string) : read_back_result :=
  ReadBackException "no reader".

(** * Properties *)

(** ** The dictionary *)

Lemma dict_get_setitem_eq k v d : dict_get k (dict_setitem k v d) = Some v.
Proof.
  induction d as [|[k' v'] d IH]; simpl.
  - by rewrite decide_True.
  - destruct (decide (k' = k)) as [->|Hne]; simpl.
    + by rewrite decide_True.
    + by rewrite decide_False.
Qed.

Lemma dict_get_setitem_ne k k' v d :
  k ≠ k' → dict_get k' (dict_setitem k v d) = dict_get k' d.
Proof.
  intros Hne. induction d as [|[k0 v0] d IH]; simpl.
  - by rewrite decide_False.
  - destruct (decide (k0 = k)) as [->|Hne0]; simpl.
    + by rewrite !decide_False.
    + by rewrite IH.
Qed.

Lemma dict_setitem_twice k u v d :
  dict_setitem k v (dict_setitem k u d) = dict_setitem k v d.
Proof.
  induction d as [|[k0 v0] d IH]; simpl.
  - by rewrite decide_True.
  - destruct (decide (k0 = k)) as [->|Hne]; simpl.
    + by rewrite decide_True.
    + by rewrite decide_False, IH.
Qed.

Lemma dict_get_is_Some k d : is_Some (dict_get k d) ↔ k ∈ keys d.
Proof.
  unfold keys. induction d as [|[k0 v0] d IH]; simpl.
  - split; [intros [? ?]; discriminate | intros H; by apply not_elem_of_nil in H].
  - rewrite elem_of_cons. destruct (decide (k0 = k)) as [->|Hne].
    + split; eauto.
    + rewrite IH. split; [by right | intros [?|?]; [simplify_eq/= | done]].
Qed.

Lemma dict_contains_keys k d : dict_contains k d = bool_decide (k ∈ keys d).
Proof. unfold dict_contains. apply bool_decide_ext, dict_get_is_Some. Qed.

Lemma keys_setitem k v d : keys (dict_setitem k v d) = add_key (keys d) k.
Proof.
  unfold keys, add_key. induction d as [|[k0 v0] d IH].
  - cbn [dict_setitem fmap list_fmap fst]. case_decide as H; [|done].
    by apply not_elem_of_nil in H.
  - cbn [dict_setitem fmap list_fmap fst].
    destruct (decide (k0 = k)) as [->|Hne]; cbn [fmap list_fmap fst].
    + rewrite decide_True; [done | apply elem_of_cons; by left].
    + fold (fmap (M:=list) (@fst value (list value))). rewrite IH.
      destruct (decide (k ∈ fst <$> d)) as [Hin|Hout].
      * rewrite decide_True; [done | apply elem_of_cons; by right].
      * rewrite decide_False; [done |].
        rewrite elem_of_cons. intros [?|?]; congruence.
Qed.

Lemma add_key_idem ks k : add_key (add_key ks k) k = add_key ks k.
Proof.
  unfold add_key. destruct (decide (k ∈ ks)) as [Hin|Hout].
  - by rewrite decide_True.
  - rewrite decide_True; [done |]. apply elem_of_app. right. by apply list_elem_of_singleton.
Qed.

Lemma elem_of_add_key ks k x : x ∈ add_key ks k ↔ x ∈ ks ∨ x = k.
Proof.
  unfold add_key. destruct (decide (k ∈ ks)).
  - split; [by left | intros [?| ->]; done].
  - by rewrite elem_of_app, list_elem_of_singleton.
Qed.

Lemma NoDup_add_key ks k : NoDup ks → NoDup (add_key ks k).
Proof.
  intros Hnd. unfold add_key. destruct (decide (k ∈ ks)); [done |].
  apply list.NoDup_app. split_and!; [done | | apply NoDup_singleton].
  intros x Hx Hk. apply list_elem_of_singleton in Hk. congruence.
Qed.

Lemma elem_of_foldl_add_key names ks x :
  x ∈ foldl add_key ks names ↔ x ∈ ks ∨ x ∈ names.
Proof.
  revert ks. induction names as [|n names IH]; intros ks; simpl.
  - split; [by left | intros [?|H]; [done | by apply not_elem_of_nil in H]].
  - rewrite IH, elem_of_add_key, elem_of_cons. tauto.
Qed.

Lemma NoDup_foldl_add_key names ks : NoDup ks → NoDup (foldl add_key ks names).
Proof.
  revert ks. induction names as [|n names IH]; intros ks Hnd; simpl; [done |].
  by apply IH, NoDup_add_key.
Qed.

Lemma foldl_add_key_app ks xs ys :
  foldl add_key ks (xs ++ ys) = foldl add_key (foldl add_key ks xs) ys.
Proof. apply foldl_app. Qed.

Lemma NoDup_first_seen names : NoDup (first_seen names).
Proof. apply NoDup_foldl_add_key, NoDup_nil_2. Qed.

Lemma elem_of_first_seen names x : x ∈ first_seen names ↔ x ∈ names.
Proof.
  unfold first_seen. rewrite elem_of_foldl_add_key.
  split; [intros [H|?]; [by apply not_elem_of_nil in H | done] | by right].
Qed.

(** The number of keys first seen is the number of distinct names. *)
Lemma length_first_seen names :
  length (first_seen names) = length (remove_dups names).
Proof.
  apply Permutation_length, NoDup_Permutation.
  - apply NoDup_first_seen.
  - apply NoDup_remove_dups.
  - intros x. by rewrite elem_of_first_seen, elem_of_remove_dups.
Qed.

Lemma dict_get_elem_of k v d : dict_get k d = Some v → (k, v) ∈ d.
Proof.
  induction d as [|[k0 v0] d IH]; simpl; [done |].
  destruct (decide (k0 = k)) as [->|Hne].
  - intros [= ->]. apply elem_of_cons. by left.
  - intros H. apply elem_of_cons. right. by apply IH.
Qed.

Lemma elem_of_dict_get k v d : NoDup (keys d) → (k, v) ∈ d → dict_get k d = Some v.
Proof.
  unfold keys. induction d as [|[k0 v0] d IH]; simpl; intros Hnd Hin.
  - by apply not_elem_of_nil in Hin.
  - apply NoDup_cons in Hnd as [Hk0 Hnd].
    apply elem_of_cons in Hin as [[= -> ->]|Hin].
    + by rewrite decide_True.
    + destruct (decide (k0 = k)) as [->|Hne]; [|by apply IH].
      exfalso. apply Hk0. apply list_elem_of_fmap. by exists (k, v).
Qed.

(** ** Column labels *)

Lemma elem_of_positions columns label j :
  j ∈ positions columns label ↔ columns !! j = Some label.
Proof.
  unfold positions. rewrite list_elem_of_filter, elem_of_seq.
  split; [tauto |]. intros H. split; [done |].
  apply lookup_lt_Some in H. lia.
Qed.

Lemma NoDup_positions columns label : NoDup (positions columns label).
Proof. apply NoDup_filter, NoDup_seq. Qed.

(** A label carried by one column only is selected at that column. *)
Lemma positions_unique columns label j :
  columns !! j = Some label →
  (∀ j', columns !! j' = Some label → j' = j) →
  positions columns label = [j].
Proof.
  intros Hj Huniq.
  pose proof (NoDup_positions columns label) as Hnd.
  assert (∀ i, i ∈ positions columns label → i = j) as Hall
    by (intros i Hi; by apply Huniq, elem_of_positions).
  assert (j ∈ positions columns label) as Hin by by apply elem_of_positions.
  destruct (positions columns label) as [|a [|b l]].
  - by apply not_elem_of_nil in Hin.
  - f_equal. apply Hall, elem_of_cons. by left.
  - exfalso. apply NoDup_cons in Hnd as [Hab _]. apply Hab.
    rewrite (Hall a), (Hall b); [apply elem_of_cons; by left | |].
    + apply elem_of_cons. right. apply elem_of_cons. by left.
    + apply elem_of_cons. by left.
Qed.

Lemma positions_NoDup columns label j :
  NoDup columns → columns !! j = Some label → positions columns label = [j].
Proof.
  intros Hnd Hj. apply positions_unique; [done |].
  intros j' Hj'. by eapply NoDup_lookup.
Qed.

Lemma positions_singleton columns label j :
  positions columns label = [j] →
  columns !! j = Some label ∧ ∀ j', columns !! j' = Some label → j' = j.
Proof.
  intros H. split.
  - apply elem_of_positions. rewrite H. apply elem_of_cons. by left.
  - intros j' Hj'. apply elem_of_positions in Hj'. rewrite H in Hj'.
    by apply list_elem_of_singleton in Hj'.
Qed.

Lemma positions_not_elem_of columns label :
  label ∉ columns → positions columns label = [].
Proof.
  intros Hout. destruct (positions columns label) as [|j l] eqn:E; [done |].
  exfalso. apply Hout. apply (list_elem_of_lookup_2 _ j).
  apply elem_of_positions. rewrite E. apply elem_of_cons. by left.
Qed.

(** Two columns with the same label: the selection is a frame. *)
Lemma positions_two columns label i j :
  i ≠ j → columns !! i = Some label → columns !! j = Some label →
  ∃ a b l, positions columns label = a :: b :: l.
Proof.
  intros Hne Hi Hj.
  apply elem_of_positions in Hi, Hj.
  destruct (positions columns label) as [|a [|b l]]; [| |eauto].
  - by apply not_elem_of_nil in Hi.
  - apply list_elem_of_singleton in Hi, Hj. congruence.
Qed.

(** ** One teacher of a sheet *)

Lemma add_teacher_series columns rows name d j :
  positions columns name = [j] →
  add_teacher columns rows name d
  = Ret (extend_scores name (dropna (column j rows)) d).
Proof.
  intros Hpos. unfold add_teacher, getitem, extend_scores, scores_of.
  rewrite Hpos. cbn [mbind outcome_bind dropna_tolist].
  unfold dict_contains, dict_getitem.
  destruct (dict_get name d) as [old|] eqn:Hget.
  - rewrite bool_decide_true by eauto. rewrite Hget. done.
  - rewrite bool_decide_false by (intros [? ?]; discriminate).
    rewrite dict_get_setitem_eq. cbn. by rewrite dict_setitem_twice.
Qed.

Lemma add_teacher_frame columns rows name d a b l :
  positions columns name = a :: b :: l →
  add_teacher columns rows name d = Raise AttributeError.
Proof.
  intros Hpos. unfold add_teacher, getitem. by rewrite Hpos.
Qed.

Lemma add_teacher_missing columns rows name d :
  positions columns name = [] →
  add_teacher columns rows name d = Raise KeyError.
Proof.
  intros Hpos. unfold add_teacher, getitem. by rewrite Hpos.
Qed.

Lemma scores_of_extend_eq k xs d :
  scores_of k (extend_scores k xs d) = scores_of k d ++ xs.
Proof. unfold extend_scores, scores_of at 1. by rewrite dict_get_setitem_eq. Qed.

Lemma scores_of_extend_ne k k' xs d :
  k ≠ k' → scores_of k' (extend_scores k xs d) = scores_of k' d.
Proof.
  intros Hne. unfold extend_scores, scores_of at 1.
  by rewrite dict_get_setitem_ne.
Qed.

Lemma keys_extend k xs d : keys (extend_scores k xs d) = add_key (keys d) k.
Proof. apply keys_setitem. Qed.

(** ** The teachers of a sheet *)

Section sheet_loop.
Variable columns : list value.
Variable rows : DataFrame.

Local Abbreviation step := (sheet_step columns rows).

Lemma labelled_scores_series k j :
  positions columns k = [j] →
  labelled_scores columns rows k = dropna (column j rows).
Proof.
  intros H. unfold labelled_scores. rewrite H. cbn. apply app_nil_r.
Qed.

Lemma labelled_scores_absent k :
  k ∉ columns → labelled_scores columns rows k = [].
Proof.
  intros H. unfold labelled_scores. by rewrite positions_not_elem_of.
Qed.

(** The loop returns when every name selects a series... *)
Lemma for_each_add_teacher_series xs d :
  Forall (λ k, ∃ j, positions columns k = [j]) xs →
  for_each (add_teacher columns rows) xs d = Ret (foldl step d xs).
Proof.
  intros Hall. revert d. induction Hall as [|k xs [j Hj] _ IH]; intros d.
  - done.
  - cbn [for_each foldl]. rewrite (add_teacher_series _ _ _ _ j Hj).
    cbn [mbind outcome_bind]. rewrite IH.
    by rewrite <- (labelled_scores_series k j Hj).
Qed.

(** ... and only then. *)
Lemma for_each_add_teacher_Ret xs d d' :
  for_each (add_teacher columns rows) xs d = Ret d' →
  Forall (λ k, ∃ j, positions columns k = [j]) xs.
Proof.
  revert d. induction xs as [|k xs IH]; intros d Hrun; [constructor |].
  cbn [for_each] in Hrun.
  destruct (positions columns k) as [|a [|b l]] eqn:Hpos.
  - by rewrite add_teacher_missing in Hrun.
  - rewrite (add_teacher_series _ _ _ _ a Hpos) in Hrun.
    cbn [mbind outcome_bind] in Hrun. constructor; eauto.
  - by rewrite (add_teacher_frame _ _ _ _ a b l) in Hrun.
Qed.

(** Over names that label a column, the only exception is the one of a
    label carried by several columns. *)
Lemma for_each_add_teacher_Raise xs d e :
  xs ⊆ columns →
  for_each (add_teacher columns rows) xs d = Raise e →
  e = AttributeError.
Proof.
  revert d. induction xs as [|k xs IH]; intros d Hsub Hrun; [done |].
  cbn [for_each] in Hrun.
  destruct (positions columns k) as [|a [|b l]] eqn:Hpos.
  - exfalso. assert (k ∈ columns) as Hk by (apply Hsub, elem_of_cons; by left).
    apply list_elem_of_lookup_1 in Hk as [j Hj].
    apply elem_of_positions in Hj. rewrite Hpos in Hj.
    by apply not_elem_of_nil in Hj.
  - rewrite (add_teacher_series _ _ _ _ a Hpos) in Hrun.
    cbn [mbind outcome_bind] in Hrun. eapply IH; [|done].
    intros x Hx. apply Hsub, elem_of_cons. by right.
  - rewrite (add_teacher_frame _ _ _ _ a b l Hpos) in Hrun.
    cbn [mbind outcome_bind] in Hrun. congruence.
Qed.

Lemma all_series_NoDup :
  Forall (λ k, ∃ j, positions columns k = [j]) columns ↔ NoDup columns.
Proof.
  rewrite Forall_forall. split.
  - intros Hall. apply NoDup_alt. intros i j k Hi Hj.
    destruct (Hall k (list_elem_of_lookup_2 _ _ _ Hi)) as [p Hp].
    apply positions_singleton in Hp as [_ Hp].
    by rewrite (Hp i), (Hp j).
  - intros Hnd k Hk. apply list_elem_of_lookup_1 in Hk as [j Hj].
    exists j. by apply positions_NoDup.
Qed.

Lemma keys_foldl_step xs d :
  keys (foldl step d xs) = foldl add_key (keys d) xs.
Proof.
  revert d. induction xs as [|k xs IH]; intros d; [done |].
  cbn [foldl]. rewrite IH. unfold sheet_step. by rewrite keys_extend.
Qed.

Lemma scores_of_foldl_step_out xs d k :
  k ∉ xs → scores_of k (foldl step d xs) = scores_of k d.
Proof.
  revert d. induction xs as [|x xs IH]; intros d Hout; [done |].
  apply not_elem_of_cons in Hout as [Hne Hout].
  cbn [foldl]. rewrite IH by done. unfold sheet_step.
  by rewrite scores_of_extend_ne.
Qed.

Lemma scores_of_foldl_step_in xs d k :
  NoDup xs → k ∈ xs →
  scores_of k (foldl step d xs) = scores_of k d ++ labelled_scores columns rows k.
Proof.
  revert d. induction xs as [|x xs IH]; intros d Hnd Hin.
  - by apply not_elem_of_nil in Hin.
  - apply NoDup_cons in Hnd as [Hx Hnd]. cbn [foldl].
    apply elem_of_cons in Hin as [->|Hin].
    + rewrite scores_of_foldl_step_out by done. unfold sheet_step.
      by rewrite scores_of_extend_eq.
    + rewrite IH by done. unfold sheet_step at 1.
      rewrite scores_of_extend_ne; [done |]. intros ->. done.
Qed.

End sheet_loop.

(** ** A sheet, and all sheets *)

Lemma add_sheet_NoDup df d :
  NoDup (cleaned_teacher_names (iloc_0 df)) →
  add_sheet df d
  = Ret (foldl (sheet_step (cleaned_teacher_names (iloc_0 df)) (iloc_1_ df)) d
           (cleaned_teacher_names (iloc_0 df))).
Proof.
  intros Hnd. unfold add_sheet.
  by apply for_each_add_teacher_series, all_series_NoDup.
Qed.

Lemma add_sheet_Ret df d d' :
  add_sheet df d = Ret d' → NoDup (cleaned_teacher_names (iloc_0 df)).
Proof.
  unfold add_sheet. intros Hrun.
  apply for_each_add_teacher_Ret in Hrun. by apply all_series_NoDup.
Qed.

Lemma add_sheet_Raise df d e : add_sheet df d = Raise e → e = AttributeError.
Proof.
  unfold add_sheet. intros Hrun.
  by apply for_each_add_teacher_Raise in Hrun.
Qed.

Lemma M_bind_eq {A B} (m : M A) (f : A → M B) w :
  (m ≫= f) w
  = match m w with
    | (w', Ret a) => f a w'
    | (w', Raise e) => (w', Raise e)
    end.
Proof. reflexivity. Qed.

Lemma log_nil w : log [] w = w.
Proof. destruct w. unfold log. cbn. by rewrite app_nil_r. Qed.

Lemma log_log ms1 ms2 w : log ms2 (log ms1 w) = log (ms1 ++ ms2) w.
Proof. unfold log. cbn. by rewrite app_assoc. Qed.

Lemma sheet_names_empty df : df_empty df = true → sheet_names df = [].
Proof. unfold sheet_names. by intros ->. Qed.

Lemma sheet_names_not_empty df :
  df_empty df = false → sheet_names df = cleaned_teacher_names (iloc_0 df).
Proof. unfold sheet_names. by intros ->. Qed.

Lemma process_sheet_ok name df d w :
  NoDup (sheet_names df) →
  process_sheet (name, df) d w
  = (log (warnings [(name, df)]) w, Ret (aggregate_sheet d df)).
Proof.
  intros Hnd. unfold process_sheet, aggregate_sheet, warnings.
  cbn [omap list_omap fst snd].
  destruct (df_empty df) eqn:E.
  - by rewrite (sheet_names_empty df E).
  - rewrite (sheet_names_not_empty df E) in *.
    unfold lift. by rewrite add_sheet_NoDup, log_nil.
Qed.

Lemma process_sheet_Ret name df d w w' d' :
  process_sheet (name, df) d w = (w', Ret d') → NoDup (sheet_names df).
Proof.
  unfold process_sheet. destruct (df_empty df) eqn:E.
  - intros _. rewrite (sheet_names_empty df E). apply NoDup_nil_2.
  - rewrite (sheet_names_not_empty df E). unfold lift. intros [= _ H].
    by apply add_sheet_Ret in H.
Qed.

Lemma process_sheet_Raise sheet d w w' e :
  process_sheet sheet d w = (w', Raise e) → e = AttributeError ∧ w' = w.
Proof.
  destruct sheet as [name df]. unfold process_sheet.
  destruct (df_empty df); [done |].
  unfold lift. intros [= -> H]. by apply add_sheet_Raise in H.
Qed.

Lemma warnings_cons sheet wb :
  warnings (sheet :: wb) = warnings [sheet] ++ warnings wb.
Proof. unfold warnings. cbn. by destruct (df_empty sheet.2). Qed.

(** Every sheet has pairwise distinct keys: the loop over the sheets returns
    the aggregated dictionary and prints the warnings. *)
Lemma process_sheets_ok wb d w :
  Forall (λ sheet : string * DataFrame, NoDup (sheet_names sheet.2)) wb →
  process_sheets wb d w = (log (warnings wb) w, Ret (aggregate wb d)).
Proof.
  intros Hall. revert d w.
  induction Hall as [|[name df] wb Hnd _ IH]; intros d w.
  - cbn. by rewrite log_nil.
  - cbn [process_sheets]. rewrite M_bind_eq.
    rewrite (process_sheet_ok name df d w Hnd), IH.
    by rewrite log_log, <- warnings_cons.
Qed.

(** It returns in that case only. *)
Lemma process_sheets_Ret wb d w w' d' :
  process_sheets wb d w = (w', Ret d') →
  Forall (λ sheet : string * DataFrame, NoDup (sheet_names sheet.2)) wb.
Proof.
  revert d w. induction wb as [|[name df] wb IH]; intros d w Hrun; [constructor |].
  cbn [process_sheets] in Hrun. rewrite M_bind_eq in Hrun.
  destruct (process_sheet (name, df) d w) as [w1 [d1|e]] eqn:E; [|done].
  constructor; [by eapply process_sheet_Ret | by eapply IH].
Qed.

Lemma process_sheets_Ret_eq wb d w w' d' :
  process_sheets wb d w = (w', Ret d') →
  w' = log (warnings wb) w ∧ d' = aggregate wb d.
Proof.
  intros Hrun. pose proof (process_sheets_Ret _ _ _ _ _ Hrun) as Hall.
  rewrite (process_sheets_ok wb d w Hall) in Hrun. by injection Hrun as <- <-.
Qed.

(** The only exception of the loop, and it leaves no file. *)
Lemma process_sheets_Raise wb d w w' e :
  process_sheets wb d w = (w', Raise e) →
  e = AttributeError ∧ files w' = files w.
Proof.
  revert d w. induction wb as [|sheet wb IH]; intros d w Hrun; [done |].
  cbn [process_sheets] in Hrun. rewrite M_bind_eq in Hrun.
  destruct (process_sheet sheet d w) as [w1 [d1|e1]] eqn:E.
  - apply IH in Hrun as [-> ->]. split; [done |].
    destruct sheet as [name df]. unfold process_sheet in E.
    destruct (df_empty df); [by injection E as <- _ |].
    unfold lift in E. by injection E as <- _.
  - injection Hrun as <- <-. by apply process_sheet_Raise in E as [-> ->].
Qed.

(** ** The aggregated dictionary *)

Lemma keys_aggregate_sheet d df :
  keys (aggregate_sheet d df) = foldl add_key (keys d) (sheet_names df).
Proof. apply keys_foldl_step. Qed.

Lemma keys_aggregate wb d :
  keys (aggregate wb d) = foldl add_key (keys d) (all_names wb).
Proof.
  unfold aggregate, all_names. revert d.
  induction wb as [|[name df] wb IH]; intros d; [done |].
  cbn [fmap list_fmap foldl concat snd].
  by rewrite IH, keys_aggregate_sheet, foldl_add_key_app.
Qed.

Lemma scores_of_aggregate_sheet d df k :
  NoDup (sheet_names df) →
  scores_of k (aggregate_sheet d df) = scores_of k d ++ sheet_scores k df.
Proof.
  intros Hnd. unfold aggregate_sheet, sheet_scores.
  destruct (decide (k ∈ sheet_names df)) as [Hin|Hout].
  - by apply scores_of_foldl_step_in.
  - rewrite scores_of_foldl_step_out by done.
    by rewrite labelled_scores_absent, app_nil_r.
Qed.

Lemma scores_of_aggregate wb d k :
  Forall (λ sheet : string * DataFrame, NoDup (sheet_names sheet.2)) wb →
  scores_of k (aggregate wb d)
  = scores_of k d ++ concat ((λ sheet, sheet_scores k sheet.2) <$> wb).
Proof.
  intros Hall. unfold aggregate. revert d.
  induction Hall as [|[name df] wb Hnd _ IH]; intros d.
  - cbn. by rewrite app_nil_r.
  - cbn [fmap list_fmap foldl concat snd].
    by rewrite IH, scores_of_aggregate_sheet, app_assoc.
Qed.

Lemma scores_of_aggregate_nil wb k :
  Forall (λ sheet : string * DataFrame, NoDup (sheet_names sheet.2)) wb →
  scores_of k (aggregate wb []) = workbook_scores k wb.
Proof. intros Hall. by rewrite scores_of_aggregate. Qed.

(** ** Means *)

Lemma numbers_fmap xs : numbers (Number <$> xs) = Some xs.
Proof. induction xs as [|x xs IH]; cbn; [done |]. by rewrite IH. Qed.

Lemma numbers_Some scores xs : numbers scores = Some xs → scores = Number <$> xs.
Proof.
  revert xs. induction scores as [|[x|s] scores IH]; intros xs H; cbn in H.
  - by injection H as <-.
  - destruct (numbers scores) as [ys|]; [|done]. cbn in H.
    injection H as <-. cbn. f_equal. by apply IH.
  - done.
Qed.

Lemma numbers_of_Forall scores :
  Forall is_number scores → ∃ xs, scores = Number <$> xs.
Proof.
  induction 1 as [|[x|s] scores Hx _ [xs ->]]; [by exists [] | | done].
  by exists (x :: xs).
Qed.

Section means_facts.

Context {arith : Arithmetic}.

Lemma teacher_average_numbers k xs :
  teacher_average (k, Number <$> xs) = Ret (k, mean_of k xs).
Proof.
  destruct xs as [|x xs]; [done |].
  unfold teacher_average, sum_scores.
  change (Number <$> x :: xs) with (Number x :: (Number <$> xs)) at 1.
  cbv beta iota. rewrite (numbers_fmap (x :: xs)).
  cbn [mbind outcome_bind mret outcome_ret]. by rewrite length_fmap.
Qed.

(** A mean is returned for lists of numbers only, and it is the mean of
    their sum over their count. *)
Lemma teacher_average_Ret k scores row :
  teacher_average (k, scores) = Ret row →
  ∃ xs, scores = Number <$> xs ∧ row = (k, mean_of k xs).
Proof.
  intros H. assert (∃ xs, scores = Number <$> xs) as [xs ->].
  { destruct scores as [|v scores]; [by exists [] |].
    unfold teacher_average, sum_scores in H.
    destruct (numbers (v :: scores)) as [xs|] eqn:E; [|done].
    exists xs. by apply numbers_Some. }
  exists xs. split; [done |].
  rewrite teacher_average_numbers in H. congruence.
Qed.

Lemma teacher_average_Raise entry e : teacher_average entry = Raise e → e = TypeError.
Proof.
  destruct entry as [k [|v scores]]; [done |]. unfold teacher_average, sum_scores.
  destruct (numbers (v :: scores)) as [xs|]; [done |]. by intros [= <-].
Qed.

Lemma teacher_avg_scores_Ret d avg :
  teacher_avg_scores d = Ret avg →
  Forall2 (λ entry row, teacher_average entry = Ret row) d avg.
Proof.
  revert avg. induction d as [|entry d IH]; intros avg H; cbn in H.
  - injection H as <-. constructor.
  - destruct (teacher_average entry) as [row|e] eqn:E; [|done].
    cbn in H. destruct (teacher_avg_scores d) as [rows|e] eqn:E'; [|done].
    cbn in H. injection H as <-. constructor; [done | by apply IH].
Qed.

Lemma teacher_avg_scores_numbers d :
  Forall (λ entry : value * list value, Forall is_number entry.2) d →
  ∃ avg, teacher_avg_scores d = Ret avg.
Proof.
  induction 1 as [|[k scores] d Hnum _ [avg IH]]; [by exists [] |].
  cbn in Hnum. apply numbers_of_Forall in Hnum as [xs ->].
  exists ((k, mean_of k xs) :: avg).
  cbn [teacher_avg_scores]. by rewrite teacher_average_numbers, IH.
Qed.

Lemma teacher_avg_scores_Raise d e : teacher_avg_scores d = Raise e → e = TypeError.
Proof.
  induction d as [|entry d IH]; cbn; [done |].
  destruct (teacher_average entry) as [row|e'] eqn:E.
  - cbn. destruct (teacher_avg_scores d) as [rows|e'']; [done |].
    cbn. intros [= <-]. by apply IH.
  - cbn. intros [= <-]. by eapply teacher_average_Raise.
Qed.

(** A dictionary that was averaged holds numbers only. *)
Lemma averaged_scores_are_numbers d avg k :
  teacher_avg_scores d = Ret avg → Forall is_number (scores_of k d).
Proof.
  intros Havg. unfold scores_of.
  destruct (dict_get k d) as [v|] eqn:Hget; [|constructor]. cbn.
  apply dict_get_elem_of, list_elem_of_lookup_1 in Hget as [i Hi].
  apply teacher_avg_scores_Ret in Havg.
  destruct (Forall2_lookup_l _ _ _ _ _ Havg Hi) as (row & _ & Hrow).
  apply teacher_average_Ret in Hrow as (xs & -> & _).
  apply Forall_fmap, Forall_forall. by intros x _.
Qed.

Lemma teacher_average_fst entry row : teacher_average entry = Ret row → row.1 = entry.1.
Proof.
  destruct entry as [k scores]. intros H.
  by apply teacher_average_Ret in H as (xs & _ & ->).
Qed.

Lemma teacher_avg_scores_keys d avg :
  teacher_avg_scores d = Ret avg → fst <$> avg = keys d.
Proof.
  intros H. apply teacher_avg_scores_Ret in H. unfold keys.
  induction H as [|entry row d avg Hrow _ IH]; [done |].
  cbn. by rewrite IH, (teacher_average_fst _ _ Hrow).
Qed.

End means_facts.

(** ** Ranks *)

Lemma length_add_rank rows : length (add_rank rows) = length rows.
Proof. apply length_imap. Qed.

Lemma lookup_add_rank rows i r :
  add_rank rows !! i = Some r ↔
  rows !! i = Some (Teacher r, Mean_Score r) ∧ Rank r = i + 1.
Proof.
  unfold add_rank. rewrite list_lookup_imap.
  destruct (rows !! i) as [[k m]|]; cbn.
  - split.
    + by intros [= <-].
    + intros [[= -> ->] <-]. by destruct r.
  - split; [done | by intros [? _]].
Qed.

Lemma Rank_add_rank rows : Rank <$> add_rank rows = seq 1 (length rows).
Proof.
  unfold add_rank. rewrite fmap_imap.
  rewrite (imap_ext _ (λ j _, id (1 + j))) by (intros; cbn; lia).
  rewrite (imap_seq rows id 1). by rewrite list_fmap_id.
Qed.

Lemma StronglySorted_lookup {A} (R : relation A) l i j a b :
  StronglySorted R l → i < j → l !! i = Some a → l !! j = Some b → R a b.
Proof.
  intros Hs. revert i j. induction Hs as [|x l _ IH Hall]; intros i j Hlt Hi Hj.
  - done.
  - destruct j as [|j]; [lia |]. cbn in Hj. destruct i as [|i]; cbn in Hi.
    + injection Hi as ->. eapply Forall_lookup_1; eauto.
    + eapply IH; [|done..]. lia.
Qed.

(** ** Names *)

Lemma lookup_cleaned_teacher_names names i :
  cleaned_teacher_names names !! i = clean_name i <$> names !! i.
Proof. apply list_lookup_imap. Qed.

Lemma clean_name_blank i c : blank c → clean_name i c = placeholder i.
Proof. destruct c as [v|]; cbn; [by intros -> | done]. Qed.

Lemma clean_name_verbatim i v : not_blank v = true → clean_name i (Some v) = v.
Proof. cbn. by intros ->. Qed.

Lemma placeholder_inj i j : placeholder i = placeholder j → i = j.
Proof.
  unfold placeholder. intros [= H].
  change (pretty i = pretty j) in H. by apply (inj pretty) in H.
Qed.

(** A sheet with a cell in row 0 is not empty. *)
Lemma df_empty_lookup df i c : iloc_0 df !! i = Some c → df_empty df = false.
Proof.
  destruct df as [|r df]; [done |]. cbn. intros H.
  apply bool_decide_eq_false. apply lookup_lt_Some in H. lia.
Qed.

Lemma sheet_names_blank df i c :
  iloc_0 df !! i = Some c → blank c → sheet_names df !! i = Some (placeholder i).
Proof.
  intros Hi Hc. rewrite (sheet_names_not_empty df (df_empty_lookup df i c Hi)).
  rewrite lookup_cleaned_teacher_names, Hi. cbn. by rewrite clean_name_blank.
Qed.

Lemma sheet_scores_series k df j :
  NoDup (sheet_names df) → sheet_names df !! j = Some k →
  sheet_scores k df = dropna (column j (iloc_1_ df)).
Proof.
  intros Hnd Hj. unfold sheet_scores.
  by apply labelled_scores_series, positions_NoDup.
Qed.

Lemma sheet_scores_absent k df : k ∉ sheet_names df → sheet_scores k df = [].
Proof. apply labelled_scores_absent. Qed.

Lemma workbook_scores_app k wb1 wb2 :
  workbook_scores k (wb1 ++ wb2) = workbook_scores k wb1 ++ workbook_scores k wb2.
Proof. unfold workbook_scores. by rewrite fmap_app, concat_app. Qed.

Lemma workbook_scores_cons k sheet wb :
  workbook_scores k (sheet :: wb) = sheet_scores k sheet.2 ++ workbook_scores k wb.
Proof. done. Qed.

(** [dropna] keeps the present cells and their order. *)
Lemma dropna_filter xs : Some <$> dropna xs = filter (λ c : cell, is_Some c) xs.
Proof.
  unfold dropna. induction xs as [|[v|] xs IH]; [done | |].
  - cbn [omap list_omap id fmap list_fmap]. rewrite filter_cons_True by eauto.
    f_equal. apply IH.
  - cbn [omap list_omap id]. rewrite filter_cons_False; [done |].
    intros [? ?]; discriminate.
Qed.

Lemma elem_of_dropna xs v : v ∈ dropna xs ↔ Some v ∈ xs.
Proof.
  unfold dropna. rewrite list_elem_of_omap. split.
  - intros [c [Hc Heq]]. cbn in Heq. by subst.
  - intros H. by exists (Some v).
Qed.

Lemma elem_of_column j rows c :
  c ∈ column j rows → c = None ∨ ∃ r, r ∈ rows ∧ c ∈ r.
Proof.
  unfold column. intros H. apply list_elem_of_fmap in H as [r [-> Hr]].
  destruct (r !! j) as [c|] eqn:E; cbn; [|by left].
  right. exists r. split; [done |]. by eapply list_elem_of_lookup_2.
Qed.

(** * The claims *)

(** ** Sanitized names (C5) *)

(** C5, as the spec states it, fails: two columns of a sheet that carry the
    same non-blank name get the same key ["Alice"]. *)
Lemma same_name_columns_share_key : ¬ columns_have_distinct_keys.
Proof.
  intros H.
  by apply (H [txt "Alice"; txt "Alice"] 0 1 (Text "Alice") (Text "Alice")).
Qed.

(** C5, amended: the sanitized row has one key per column; a blank or missing
    name at column [i] becomes the placeholder of [i]; a name that is not
    blank is kept verbatim; and two columns whose names are both blank get
    different keys.  (Columns with equal non-blank names share their key.) *)
Theorem sanitized_names (teacher_names_on_sheet : list cell) :
  let cleaned := cleaned_teacher_names teacher_names_on_sheet in
  length cleaned = length teacher_names_on_sheet ∧
  (∀ i c, teacher_names_on_sheet !! i = Some c → blank c →
          cleaned !! i = Some (placeholder i)) ∧
  (∀ i v, teacher_names_on_sheet !! i = Some (Some v) → not_blank v = true →
          cleaned !! i = Some v) ∧
  (∀ i j ci cj, i ≠ j →
          teacher_names_on_sheet !! i = Some ci → blank ci →
          teacher_names_on_sheet !! j = Some cj → blank cj →
          cleaned !! i ≠ cleaned !! j).
Proof.
  cbn zeta. split_and!.
  - apply length_imap.
  - intros i c Hi Hc. rewrite lookup_cleaned_teacher_names, Hi. cbn.
    by rewrite clean_name_blank.
  - intros i v Hi Hv. rewrite lookup_cleaned_teacher_names, Hi. cbn.
    by rewrite Hv.
  - intros i j ci cj Hne Hi Hci Hj Hcj.
    rewrite !lookup_cleaned_teacher_names, Hi, Hj. cbn.
    rewrite !clean_name_blank by done. intros H.
    by apply (inj Some), placeholder_inj in H.
Qed.

Lemma sanitized_names_witness :
  cleaned_teacher_names [txt "Alice"; None; txt "  "; txt " Bob "] !! 1
  ≠ cleaned_teacher_names [txt "Alice"; None; txt "  "; txt " Bob "] !! 2.
Proof.
  refine (proj2 (proj2 (proj2
    (sanitized_names [txt "Alice"; None; txt "  "; txt " Bob "])))
    1 2 None (txt "  ") _ _ _ _ _).
  - lia.
  - reflexivity.
  - exact I.
  - reflexivity.
  - reflexivity.
Defined.

(** ** What a column appends (C4) *)

(** C4, as the spec states it, fails whatever "numeric-coercible" means, as
    long as the text ["abc"] is not: the cell is appended all the same. *)
Lemma text_cell_is_appended :
  ¬ ∃ coercible : value → bool,
      coercible (Text "abc") = false ∧ appends_coercible_cells coercible.
Proof.
  intros [coercible [Habc H]].
  destruct (H [[txt "Alice"]; [txt "abc"]] [] [(Text "Alice", [Text "abc"])]
              0 (Text "Alice") eq_refl eq_refl) as [appended [Happ Hiff]].
  cbn in Happ. subst appended.
  destruct (Hiff (Text "abc")) as [Hin _].
  destruct Hin as [_ Hco]; [apply elem_of_cons; by left |].
  congruence.
Qed.

(** C4, amended: for a sheet that is processed, the column at position [j]
    appends to the list of its teacher the cells of its score region that are
    not empty, numbers and texts alike, in row order. *)
Theorem column_appends_present_cells df d d' j k :
  add_sheet df d = Ret d' →
  cleaned_teacher_names (iloc_0 df) !! j = Some k →
  let cells := column j (iloc_1_ df) in
  ∃ appended,
    scores_of k d' = scores_of k d ++ appended ∧
    Some <$> appended = filter (λ c : cell, is_Some c) cells ∧
    ∀ v, v ∈ appended ↔ Some v ∈ cells.
Proof.
  intros Hrun Hj cells. exists (dropna cells).
  split_and!; [| apply dropna_filter | apply elem_of_dropna].
  pose proof (add_sheet_Ret _ _ _ Hrun) as Hnd.
  rewrite (add_sheet_NoDup df d Hnd) in Hrun. injection Hrun as <-.
  rewrite scores_of_foldl_step_in; [| done | by eapply list_elem_of_lookup_2].
  f_equal. by apply labelled_scores_series, positions_NoDup.
Qed.

Lemma column_appends_present_cells_witness :
  ∃ appended,
    scores_of (Text "Bob")
      (extend_scores (Text "Bob") [Number (Qc_of_Z 9); Text "n/a"]
         (extend_scores (Text "Alice") [Number (Qc_of_Z 5); Number (Qc_of_Z 7)]
            [(Text "Bob", [Number (Qc_of_Z 1)])]))
    = scores_of (Text "Bob") [(Text "Bob", [Number (Qc_of_Z 1)])] ++ appended ∧
    Some <$> appended
    = filter (λ c : cell, is_Some c) [num 9; None; txt "n/a"] ∧
    ∀ v, v ∈ appended ↔ Some v ∈ [num 9; None; txt "n/a"].
Proof.
  exact (column_appends_present_cells
           [[txt "Alice"; txt "Bob"]; [num 5; num 9]; [num 7; None]; [None; txt "n/a"]]
           [(Text "Bob", [Number (Qc_of_Z 1)])] _ 1 (Text "Bob")
           eq_refl eq_refl).
Defined.

(** ** Merging across sheets (C3, C10) *)

(** C3: when the loop over the sheets returns, the dictionary has one entry
    per name, in the order of first encounter, and the entry of a name is the
    concatenation, in sheet order, of what each sheet contributes under that
    name: nothing for a sheet without the name, and the non-empty score cells
    of its column, in row order, for a sheet with it. *)
Theorem scores_concatenate_over_sheets wb w w' d k :
  process_sheets wb [] w = (w', Ret d) →
  k ∈ all_names wb →
  keys d = first_seen (all_names wb) ∧
  NoDup (keys d) ∧
  dict_get k d = Some (workbook_scores k wb) ∧
  ∀ sheet, sheet ∈ wb →
    (k ∉ sheet_names sheet.2 → sheet_scores k sheet.2 = []) ∧
    (∀ j, sheet_names sheet.2 !! j = Some k →
          sheet_scores k sheet.2 = dropna (column j (iloc_1_ sheet.2))).
Proof.
  intros Hrun Hk.
  pose proof (process_sheets_Ret _ _ _ _ _ Hrun) as Hall.
  apply process_sheets_Ret_eq in Hrun as [-> ->].
  assert (keys (aggregate wb []) = first_seen (all_names wb)) as Hkeys
    by apply keys_aggregate.
  split_and!.
  - done.
  - rewrite Hkeys. apply NoDup_first_seen.
  - assert (is_Some (dict_get k (aggregate wb []))) as [v Hv].
    { apply dict_get_is_Some. rewrite Hkeys. by apply elem_of_first_seen. }
    rewrite Hv. f_equal. rewrite <- (scores_of_aggregate_nil wb k Hall).
    unfold scores_of. by rewrite Hv.
  - intros sheet Hsheet. split; [apply sheet_scores_absent |].
    intros j Hj. apply sheet_scores_series; [|done].
    by apply (proj1 (Forall_forall _ _) Hall sheet).
Qed.

Lemma scores_concatenate_over_sheets_witness :
  dict_get (Text "Alice")
    [(Text "Alice", [Number (Qc_of_Z 5); Number (Qc_of_Z 7); Number (Qc_of_Z 3)]);
     (Text "Bob", [Number (Qc_of_Z 9); Number (Qc_of_Z 10)])]
  = Some (workbook_scores (Text "Alice") two_sheets).
Proof.
  refine (proj1 (proj2 (proj2
    (scores_concatenate_over_sheets two_sheets start start _ (Text "Alice") _ _)))).
  - reflexivity.
  - vm_compute. apply elem_of_cons. by left.
Defined.

(** C10: a blank or missing name at column [i] gets the same placeholder key
    in every sheet, so two sheets that both have a blank name at column [i]
    feed one entry of the dictionary: its list holds the cells of the first
    sheet's column and, later, those of the second sheet's. *)
Theorem blank_columns_merge_across_sheets
    wb0 name1 df1 wb1 name2 df2 wb2 i c1 c2 w w' d :
  iloc_0 df1 !! i = Some c1 → blank c1 →
  iloc_0 df2 !! i = Some c2 → blank c2 →
  process_sheets (wb0 ++ (name1, df1) :: wb1 ++ (name2, df2) :: wb2) [] w
  = (w', Ret d) →
  let key := placeholder i in
  sheet_names df1 !! i = Some key ∧
  sheet_names df2 !! i = Some key ∧
  NoDup (keys d) ∧
  dict_get key d
  = Some (workbook_scores key wb0 ++ dropna (column i (iloc_1_ df1)) ++
          workbook_scores key wb1 ++ dropna (column i (iloc_1_ df2)) ++
          workbook_scores key wb2).
Proof.
  intros Hi1 Hc1 Hi2 Hc2 Hrun key.
  pose proof (sheet_names_blank df1 i c1 Hi1 Hc1) as Hk1.
  pose proof (sheet_names_blank df2 i c2 Hi2 Hc2) as Hk2.
  pose proof (process_sheets_Ret _ _ _ _ _ Hrun) as Hall.
  assert (key ∈ all_names (wb0 ++ (name1, df1) :: wb1 ++ (name2, df2) :: wb2))
    as Hin.
  { unfold all_names. rewrite fmap_app, concat_app. apply elem_of_app. right.
    cbn. apply elem_of_app. left. by eapply list_elem_of_lookup_2. }
  destruct (scores_concatenate_over_sheets _ _ _ _ key Hrun Hin)
    as (_ & Hnd & Hget & _).
  split_and!; [done.. |]. rewrite Hget. f_equal.
  apply Forall_app in Hall as [_ Hall].
  apply Forall_cons in Hall as [Hnd1 Hall].
  apply Forall_app in Hall as [_ Hall].
  apply Forall_cons in Hall as [Hnd2 _].
  rewrite workbook_scores_app, workbook_scores_cons.
  rewrite workbook_scores_app, workbook_scores_cons. cbn [snd].
  rewrite (sheet_scores_series key df1 i Hnd1 Hk1).
  by rewrite (sheet_scores_series key df2 i Hnd2 Hk2).
Qed.

Lemma blank_columns_merge_across_sheets_witness :
  dict_get (placeholder 1)
    [(Text "Alice", [Number (Qc_of_Z 5); Number (Qc_of_Z 7)]);
     (Text "Unnamed_Teacher_1", [Number (Qc_of_Z 9); Number (Qc_of_Z 3)]);
     (Text "Bob", [Number (Qc_of_Z 10)])]
  = Some ([] ++ dropna [num 9; None] ++ [] ++ dropna [num 3] ++ []).
Proof.
  refine (proj2 (proj2 (proj2
    (blank_columns_merge_across_sheets []
       "9-A" [[txt "Alice"; None]; [num 5; num 9]; [num 7; None]] []
       "9-B" [[txt "Bob"; txt " "]; [num 10; num 3]] []
       1 None (txt " ") start start _ _ _ _ _ _)))).
  - reflexivity.
  - exact I.
  - reflexivity.
  - reflexivity.
  - reflexivity.
Defined.

(** ** The whole run *)

Section Correctness.

Context {arith : Arithmetic}.
Variable read_excel : string → read_result.
Variable sort_values : list (value * pynum) → list (value * pynum).
Variable to_excel : string → list ranking_row → option string.

(** The contract of [sort_values(by=mean, ascending=False)]: the same rows,
    in descending order of their mean. *)
Hypothesis sort_values_perm : ∀ rows, sort_values rows ≡ₚ rows.
Hypothesis sort_values_desc : ∀ rows, descending (sort_values rows).

Local Abbreviation export := (rank_and_export sort_values to_excel).

Lemma rank_and_export_nil output w :
  export [] output w = (log [NoData] w, Ret false).
Proof. done. Qed.

Lemma rank_and_export_ok d output avg w :
  d ≠ [] →
  teacher_avg_scores d = Ret avg →
  to_excel output (add_rank (sort_values avg)) = None →
  export d output w = (saved w output (add_rank (sort_values avg)), Ret true).
Proof.
  intros Hd Havg Hwrite. destruct d as [|entry d]; [done |].
  unfold rank_and_export. rewrite M_bind_eq. unfold lift. rewrite Havg.
  by rewrite Hwrite.
Qed.

Lemma rank_and_export_true d output w w' :
  export d output w = (w', Ret true) →
  ∃ avg,
    d ≠ [] ∧ teacher_avg_scores d = Ret avg ∧
    w' = saved w output (add_rank (sort_values avg)).
Proof.
  destruct d as [|entry d]; [done |].
  unfold rank_and_export. rewrite M_bind_eq. unfold lift.
  destruct (teacher_avg_scores (entry :: d)) as [avg|e] eqn:Havg; [|done].
  destruct (to_excel output (add_rank (sort_values avg))) eqn:Hwrite; [done |].
  intros [= <-]. by exists avg.
Qed.

Lemma rank_and_export_files d output w w' b :
  export d output w = (w', Ret b) → b = false → files w' = files w.
Proof.
  destruct d as [|entry d]; [by intros [= <- _] |].
  unfold rank_and_export. rewrite M_bind_eq. unfold lift.
  destruct (teacher_avg_scores (entry :: d)) as [avg|e] eqn:Havg; [|done].
  destruct (to_excel output (add_rank (sort_values avg))) eqn:Hwrite.
  - by intros [= <- _].
  - intros [= _ <-]. done.
Qed.

Lemma run_sheets input output wb w :
  read_excel input = Sheets wb →
  create_teacher_ranking_excel read_excel sort_values to_excel input output w
  = match process_sheets wb [] w with
    | (w1, Ret d) => export d output w1
    | (w1, Raise e) => (w1, Raise e)
    end.
Proof. intros Hread. unfold create_teacher_ranking_excel. by rewrite Hread. Qed.

(** A run returns [True] only after every stage went through. *)
Lemma run_true input output w w' :
  create_teacher_ranking_excel read_excel sort_values to_excel input output w
  = (w', Ret true) →
  ∃ wb avg,
    read_excel input = Sheets wb ∧
    process_sheets wb [] w = (log (warnings wb) w, Ret (aggregate wb [])) ∧
    aggregate wb [] ≠ [] ∧
    teacher_avg_scores (aggregate wb []) = Ret avg ∧
    w' = saved (log (warnings wb) w) output (add_rank (sort_values avg)).
Proof.
  intros Hrun. destruct (read_excel input) as [| e |wb] eqn:Hread.
  - unfold create_teacher_ranking_excel in Hrun. by rewrite Hread in Hrun.
  - unfold create_teacher_ranking_excel in Hrun. by rewrite Hread in Hrun.
  - rewrite (run_sheets _ _ _ _ Hread) in Hrun.
    destruct (process_sheets wb [] w) as [w1 [d|e]] eqn:Hagg; [|done].
    pose proof (process_sheets_Ret_eq _ _ _ _ _ Hagg) as [-> ->].
    apply rank_and_export_true in Hrun as (avg & Hd & Havg & ->).
    by exists wb, avg.
Qed.

Lemma elem_of_add_rank rows r :
  r ∈ add_rank rows ↔ ∃ i, rows !! i = Some (Teacher r, Mean_Score r) ∧ Rank r = i + 1.
Proof.
  rewrite list_elem_of_lookup. by setoid_rewrite lookup_add_rank.
Qed.

(** C7: when reading the input raises, for a path that does not resolve as
    for any other failure, the run prints the one line of that error and
    returns [False]; no sheet is looked at and no file is written. *)
Theorem unreadable_input_aborts input output w :
  read_excel input = FileNotFoundError ∨ (∃ e, read_excel input = ReadException e) →
  ∃ m,
    (m = InputNotFound input ∨ ∃ e, m = InputReadError e) ∧
    create_teacher_ranking_excel read_excel sort_values to_excel input output w
    = (log [m] w, Ret false) ∧
    files (create_teacher_ranking_excel read_excel sort_values to_excel
             input output w).1
    = files w.
Proof.
  unfold create_teacher_ranking_excel. intros [Hread|[e Hread]]; rewrite Hread.
  - exists (InputNotFound input). split_and!; [by left | done..].
  - exists (InputReadError e). split_and!; [right; by exists e | done..].
Qed.

(** C6: when the loop over the sheets ends with an empty dictionary, the run
    prints the "no data" line, returns [False] and writes no file. *)
Theorem no_teacher_no_output input output wb w w1 :
  read_excel input = Sheets wb →
  process_sheets wb [] w = (w1, Ret []) →
  create_teacher_ranking_excel read_excel sort_values to_excel input output w
  = (log [NoData] w1, Ret false) ∧
  files (create_teacher_ranking_excel read_excel sort_values to_excel
           input output w).1
  = files w.
Proof.
  intros Hread Hagg. rewrite (run_sheets _ _ _ _ Hread), Hagg.
  split; [done |]. apply process_sheets_Ret_eq in Hagg as [-> _]. done.
Qed.

(** C9: a sheet whose row 0 has the same non-blank name in two columns makes
    the run raise [AttributeError]; nothing is returned and no file is
    written. *)
Theorem duplicate_name_raises input output wb sheet i j v w :
  read_excel input = Sheets wb →
  sheet ∈ wb →
  i ≠ j →
  iloc_0 sheet.2 !! i = Some (Some v) →
  iloc_0 sheet.2 !! j = Some (Some v) →
  not_blank v = true →
  ∃ w',
    create_teacher_ranking_excel read_excel sort_values to_excel input output w
    = (w', Raise AttributeError) ∧
    files w' = files w.
Proof.
  intros Hread Hsheet Hne Hi Hj Hv. rewrite (run_sheets _ _ _ _ Hread).
  destruct (process_sheets wb [] w) as [w1 [d|e]] eqn:Hagg.
  - exfalso. apply process_sheets_Ret in Hagg.
    pose proof (proj1 (Forall_forall _ _) Hagg sheet Hsheet) as Hnd.
    cbn in Hnd. apply Hne. eapply (NoDup_lookup _ i j v Hnd).
    + rewrite (sheet_names_not_empty _ (df_empty_lookup _ _ _ Hi)).
      rewrite lookup_cleaned_teacher_names, Hi. cbn. by rewrite Hv.
    + rewrite (sheet_names_not_empty _ (df_empty_lookup _ _ _ Hi)).
      rewrite lookup_cleaned_teacher_names, Hj. cbn. by rewrite Hv.
  - apply process_sheets_Raise in Hagg as [-> Hfiles]. by exists w1.
Qed.

Lemma Teacher_add_rank rows : Teacher <$> add_rank rows = fst <$> rows.
Proof.
  unfold add_rank. rewrite fmap_imap.
  rewrite (imap_ext _ (λ _ r, r.1)) by done. apply imap_const.
Qed.

(** The table without its rank column is the frame that was ranked. *)
Lemma rows_add_rank rows :
  (λ r, (Teacher r, Mean_Score r)) <$> add_rank rows = rows.
Proof.
  unfold add_rank. rewrite fmap_imap.
  rewrite (imap_ext _ (λ _ r, r)) by (by intros i [k m] _).
  transitivity (id <$> rows); [apply (imap_const id) | apply list_fmap_id].
Qed.



Lemma elem_of_concat {A} (x : A) (ls : list (list A)) :
  x ∈ concat ls ↔ ∃ l, x ∈ l ∧ l ∈ ls.
Proof.
  induction ls as [|l ls IH]; cbn.
  - split; [intros H; by apply not_elem_of_nil in H |].
    intros (l & _ & H). by apply not_elem_of_nil in H.
  - rewrite elem_of_app, IH. split.
    + intros [H|(l' & H & Hl')].
      * exists l. split; [done | apply elem_of_cons; by left].
      * exists l'. split; [done | apply elem_of_cons; by right].
    + intros (l' & H & Hl'). apply elem_of_cons in Hl' as [->|Hl']; [by left |].
      right. by exists l'.
Qed.

Lemma sheet_scores_numbers k df :
  (∀ r c, r ∈ iloc_1_ df → c ∈ r → numeric_or_empty c) →
  Forall is_number (sheet_scores k df).
Proof.
  intros Hnum. apply Forall_forall. intros v Hv.
  unfold sheet_scores, labelled_scores in Hv.
  apply elem_of_concat in Hv as (l & Hv & Hl).
  apply list_elem_of_fmap in Hl as (j & -> & _).
  apply elem_of_dropna, elem_of_column in Hv as [?|(r & Hr & Hc)]; [done |].
  apply (Hnum r (Some v) Hr Hc).
Qed.

Lemma workbook_scores_numbers k wb :
  Forall (λ sheet : string * DataFrame, valid_sheet sheet.2) wb →
  Forall is_number (workbook_scores k wb).
Proof.
  intros Hall. unfold workbook_scores.
  induction Hall as [|sheet wb [_ Hnum] _ IH]; [constructor |].
  cbn. apply Forall_app. split; [by apply sheet_scores_numbers | done].
Qed.

Lemma NoDup_keys_aggregate wb : NoDup (keys (aggregate wb [])).
Proof. rewrite keys_aggregate. apply NoDup_foldl_add_key, NoDup_nil_2. Qed.

Lemma aggregate_numbers wb :
  Forall (λ sheet : string * DataFrame, valid_sheet sheet.2) wb →
  Forall (λ entry : value * list value, Forall is_number entry.2)
    (aggregate wb []).
Proof.
  intros Hall. apply Forall_forall. intros [k v] Hin. cbn.
  apply elem_of_dict_get in Hin; [|apply NoDup_keys_aggregate].
  assert (v = scores_of k (aggregate wb [])) as ->
    by (unfold scores_of; by rewrite Hin).
  rewrite scores_of_aggregate_nil.
  - by apply workbook_scores_numbers.
  - eapply Forall_impl; [done |]. by intros sheet [Hnd _].
Qed.

Lemma length_aggregate wb :
  length (aggregate wb []) = length (remove_dups (all_names wb)).
Proof.
  assert (keys (aggregate wb []) = first_seen (all_names wb)) as Hkeys
    by apply keys_aggregate.
  rewrite <- length_first_seen, <- Hkeys. unfold keys.
  by rewrite length_fmap.
Qed.

Lemma aggregate_not_nil wb : all_names wb ≠ [] → aggregate wb [] ≠ [].
Proof.
  intros Hnames Hnil. destruct (all_names wb) as [|k names] eqn:E; [done |].
  assert (k ∈ keys (aggregate wb [])) as Hk.
  { rewrite keys_aggregate, E. apply elem_of_foldl_add_key. right.
    apply elem_of_cons. by left. }
  rewrite Hnil in Hk. by apply not_elem_of_nil in Hk.
Qed.

(** C8: on a valid input with a teacher in it, and when the write goes
    through, the run returns [True] and writes a table with one row per
    distinct sanitized name of the workbook. *)
Theorem one_row_per_distinct_name input output wb w :
  read_excel input = Sheets wb →
  Forall (λ sheet : string * DataFrame, valid_sheet sheet.2) wb →
  all_names wb ≠ [] →
  (∀ table, to_excel output table = None) →
  ∃ table,
    create_teacher_ranking_excel read_excel sort_values to_excel input output w
    = (saved (log (warnings wb) w) output table, Ret true) ∧
    length table = length (remove_dups (all_names wb)).
Proof using sort_values_perm.
  intros Hread Hvalid Hnames Hwrite.
  assert (Forall (λ sheet : string * DataFrame, NoDup (sheet_names sheet.2)) wb)
    as Hnd by (eapply Forall_impl; [done |]; by intros sheet [? _]).
  destruct (teacher_avg_scores_numbers _ (aggregate_numbers wb Hvalid))
    as [avg Havg].
  exists (add_rank (sort_values avg)). split.
  - rewrite (run_sheets _ _ _ _ Hread), (process_sheets_ok wb [] w Hnd).
    apply rank_and_export_ok; [by apply aggregate_not_nil | done | apply Hwrite].
  - rewrite length_add_rank, (Permutation_length (sort_values_perm avg)).
    apply teacher_avg_scores_Ret, Forall2_length in Havg.
    by rewrite <- Havg, length_aggregate.
Qed.

End Correctness.

(** ** The concrete environment meets the contract *)

Global Instance pynum_le_trans : Transitive pynum_le.
Proof.
  intros [x| |] [y| |] [z| |]; cbn; try done. apply Qcle_trans.
Qed.

Global Instance pynum_le_total : Total pynum_le.
Proof.
  intros [x| |] [y| |]; cbn; auto. destruct (total Qcle x y); auto.
Qed.

Global Instance by_mean_desc_trans : Transitive by_mean_desc.
Proof. intros a b c Hab Hbc. unfold by_mean_desc in *. by etrans. Qed.

Global Instance by_mean_desc_total : Total by_mean_desc.
Proof. intros a b. unfold by_mean_desc. destruct (total pynum_le a.2 b.2); auto. Qed.

Lemma merge_sort_desc_perm rows : merge_sort_desc rows ≡ₚ rows.
Proof. apply merge_sort_Permutation. Qed.

Lemma merge_sort_desc_desc rows : descending (merge_sort_desc rows).
Proof. apply StronglySorted_merge_sort; apply _. Qed.

(** ** Runs *)

Example strip_spaces : strip "  Bob Marley	 " = "Bob Marley".
Proof. reflexivity. Qed.

(** White space outside ASCII goes as well (U+00A0, U+2003, U+3000 here),
    and other letters outside ASCII stay. *)
Example strip_no_break_space : strip "  Олена　" = "Олена".
Proof. reflexivity. Qed.

Example no_break_space_is_blank :
  cleaned_teacher_names [txt " "; txt "é"] = [placeholder 0; Text "é"].
Proof. reflexivity. Qed.

Example cleaned_names :
  cleaned_teacher_names [txt "Alice"; None; txt "  "; txt " Bob "]
  = [Text "Alice"; placeholder 1; placeholder 2; Text " Bob "].
Proof. reflexivity. Qed.

(** The scenario of the spec: Alice has 5 and 7, Bob has 9. *)
Example alice_and_bob_ranking :
  let '(w, result) := run_on alice_and_bob in
  console w = [Saved "out.xlsx"] ∧
  prod_map id as_fractions <$> files w
  = [("out.xlsx", [(Text "Bob", Some 9%Q, 1); (Text "Alice", Some 6%Q, 2)])] ∧
  result = Ret true.
Proof. vm_compute. done. Qed.

(** An empty sheet among valid ones: a warning, and the run goes on.  A
    teacher whose column has no score is ranked with the mean 0. *)
Example empty_sheet_is_skipped :
  let '(w, result) :=
    run_on (("9-C", []) :: ("9-D", [[txt "Eve"; txt "Dan"]; [None; num 4]])
              :: alice_and_bob) in
  console w = [EmptySheetWarning "9-C"; Saved "out.xlsx"] ∧
  prod_map id as_fractions <$> files w
  = [("out.xlsx", [(Text "Bob", Some 9%Q, 1); (Text "Alice", Some 6%Q, 2);
                   (Text "Dan", Some 4%Q, 3); (Text "Eve", Some 0%Q, 4)])] ∧
  result = Ret true.
Proof. vm_compute. done. Qed.

(** A text in the score region is collected and stops the run at [sum]. *)
Example text_score_raises :
  run_on [("9-A", [[txt "Alice"]; [num 5]; [txt "abc"]])]
  = (start, Raise TypeError).
Proof. reflexivity. Qed.

Lemma valid_sheet_decide df :
  NoDup (sheet_names df) →
  Forall (Forall numeric_or_empty) (iloc_1_ df) →
  valid_sheet df.
Proof.
  intros Hnd Hnum. split; [done |]. intros r c Hr Hc.
  pose proof (proj1 (Forall_forall _ _) Hnum r Hr) as Hrow.
  apply (proj1 (Forall_forall _ _) Hrow c Hc).
Qed.

(** ** The claims on examples *)

Lemma unreadable_input_aborts_witness :
  let read_excel := read_from [("bad.xlsx", ReadException "not a workbook")] in
  let run := create_teacher_ranking_excel (arith := exact_arithmetic) read_excel
               merge_sort_desc always_writes in
  (∃ m, (m = InputNotFound "missing.xlsx" ∨ ∃ e, m = InputReadError e) ∧
        run "missing.xlsx" "out.xlsx" start = (log [m] start, Ret false) ∧
        files (run "missing.xlsx" "out.xlsx" start).1 = files start) ∧
  (∃ m, (m = InputNotFound "bad.xlsx" ∨ ∃ e, m = InputReadError e) ∧
        run "bad.xlsx" "out.xlsx" start = (log [m] start, Ret false) ∧
        files (run "bad.xlsx" "out.xlsx" start).1 = files start).
Proof.
  split.
  - apply (unreadable_input_aborts (arith := exact_arithmetic)). left. reflexivity.
  - apply (unreadable_input_aborts (arith := exact_arithmetic)). right. eexists. reflexivity.
Defined.

Lemma no_teacher_no_output_witness :
  run_on only_an_empty_sheet
  = (log [NoData] (log [EmptySheetWarning "9-A"] start), Ret false) ∧
  files (run_on only_an_empty_sheet).1 = files start.
Proof.
  apply (no_teacher_no_output (arith := exact_arithmetic) (one_workbook only_an_empty_sheet) merge_sort_desc
           always_writes "in.xlsx" "out.xlsx" only_an_empty_sheet start).
  - reflexivity.
  - reflexivity.
Defined.

Lemma duplicate_name_raises_witness :
  ∃ w', run_on alice_twice = (w', Raise AttributeError) ∧ files w' = files start.
Proof.
  apply (duplicate_name_raises (arith := exact_arithmetic) (one_workbook alice_twice) merge_sort_desc
           always_writes "in.xlsx" "out.xlsx" alice_twice
           ("9-A", [[txt "Alice"; txt "Alice"]; [num 5; num 9]])
           0 1 (Text "Alice") start).
  - reflexivity.
  - apply elem_of_cons. left. reflexivity.
  - lia.
  - reflexivity.
  - reflexivity.
  - reflexivity.
Defined.



Lemma one_row_per_distinct_name_witness :
  ∃ table,
    create_teacher_ranking_excel (arith := exact_arithmetic)
      (one_workbook two_sheets) merge_sort_desc
      always_writes "in.xlsx" "out.xlsx" start
    = (saved (log (warnings two_sheets) start) "out.xlsx" table, Ret true) ∧
    length table = length (remove_dups (all_names two_sheets)).
Proof.
  apply (one_row_per_distinct_name (arith := exact_arithmetic) (one_workbook two_sheets) merge_sort_desc
           always_writes merge_sort_desc_perm "in.xlsx" "out.xlsx" two_sheets start).
  - reflexivity.
  - apply Forall_cons_2; [|apply Forall_cons_2; [|apply Forall_nil_2]];
      apply valid_sheet_decide; apply (bool_decide_unpack _); vm_compute; exact I.
  - vm_compute. discriminate.
  - reflexivity.
Defined.

(** * Further properties of the code *)

(** ** Keys are not blank (lines 50-53) *)

Section lstrip_keeps.

(** A byte that is no part of a code point the strip removes stays. *)
Variable ws1 : Ascii.ascii → bool.
Variable ws2 : Ascii.ascii → Ascii.ascii → bool.
Variable ws3 : Ascii.ascii → Ascii.ascii → Ascii.ascii → bool.
Variable u : Ascii.ascii.

Hypothesis not_ws1 : ws1 u = false.
Hypothesis not_ws2_l : ∀ b, ws2 u b = false.
Hypothesis not_ws2_r : ∀ a, ws2 a u = false.
Hypothesis not_ws3_l : ∀ b c, ws3 u b c = false.
Hypothesis not_ws3_m : ∀ a c, ws3 a u c = false.
Hypothesis not_ws3_r : ∀ a b, ws3 a b u = false.

Lemma occurs_cons_ne a s : a ≠ u → occurs u (String a s) = occurs u s.
Proof. intros Hne. cbn. by destruct (Ascii.eqb_spec a u). Qed.

Lemma occurs_lstrip_by s :
  occurs u s = true → occurs u (lstrip_by ws1 ws2 ws3 s) = true.
Proof.
  remember (String.length s) as n eqn:Hn. revert s Hn.
  induction n as [n IH] using lt_wf_ind. intros s Hn Hocc.
  destruct s as [|a s1]; [done |]. cbn [lstrip_by].
  destruct (ws1 a) eqn:E1.
  { apply (IH (String.length s1)); [cbn in Hn; lia | done |].
    rewrite occurs_cons_ne in Hocc; [done | congruence]. }
  destruct s1 as [|b s2]; [done |].
  destruct (ws2 a b) eqn:E2.
  { apply (IH (String.length s2)); [cbn in Hn; lia | done |].
    rewrite !occurs_cons_ne in Hocc; [done | |]; intros ->; congruence. }
  destruct s2 as [|c s3]; [done |].
  destruct (ws3 a b c) eqn:E3; [|done].
  apply (IH (String.length s3)); [cbn in Hn; lia | done |].
  rewrite !occurs_cons_ne in Hocc; [done | | |]; intros ->; congruence.
Qed.

End lstrip_keeps.

Lemma occurs_rev_app u s acc :
  occurs u (String.rev_app s acc) = occurs u s || occurs u acc.
Proof.
  revert acc. induction s as [|a s IH]; intros acc; cbn; [done |].
  rewrite IH. cbn. destruct (Ascii.eqb a u); [apply orb_true_r | done].
Qed.

Lemma occurs_rev u s : occurs u (String.rev s) = occurs u s.
Proof. unfold String.rev. rewrite occurs_rev_app. cbn. apply orb_false_r. Qed.

Lemma rev_app_empty s acc : String.rev_app s acc = "" ↔ s = "" ∧ acc = "".
Proof.
  revert acc. induction s as [|a s IH]; intros acc; cbn.
  - split; [done | by intros [_ ?]].
  - rewrite IH. split; [by intros [_ ?] | by intros [? _]].
Qed.

Lemma rev_empty s : String.rev s = "" ↔ s = "".
Proof. unfold String.rev. rewrite rev_app_empty. split; [by intros [? _] | done]. Qed.

(** The letter U is no byte of a white-space code point. *)
Lemma isspace2_U_r a : isspace2 a "U"%char = false.
Proof. unfold isspace2. by destruct (byte a =? 194)%nat. Qed.

Lemma isspace3_U_m a c : isspace3 a "U"%char c = false.
Proof.
  unfold isspace3.
  by destruct (byte a =? 225)%nat, (byte a =? 226)%nat, (byte a =? 227)%nat.
Qed.

Lemma isspace3_U_r a b : isspace3 a b "U"%char = false.
Proof.
  unfold isspace3.
  by destruct (byte a =? 225)%nat, (byte a =? 226)%nat, (byte a =? 227)%nat,
    (byte b =? 154)%nat, (byte b =? 128)%nat, (byte b =? 129)%nat.
Qed.

(** A text with the letter U in it is not emptied by [strip]. *)
Lemma strip_U s : occurs "U"%char s = true → strip s ≠ "".
Proof.
  intros Hocc. unfold strip, rstrip, lstrip. rewrite rev_empty.
  intros Hempty.
  assert (occurs "U"%char
            (lstrip_by isspace (λ a b, isspace2 b a) (λ a b c, isspace3 c b a)
               (String.rev (lstrip_by isspace isspace2 isspace3 s))) = true)
    as Hkept.
  { apply occurs_lstrip_by; try done.
    - apply isspace2_U_r.
    - intros b c. apply isspace3_U_r.
    - intros a c. apply isspace3_U_m.
    - rewrite occurs_rev.
      apply occurs_lstrip_by; try done.
      + apply isspace2_U_r.
      + apply isspace3_U_m.
      + apply isspace3_U_r. }
  by rewrite Hempty in Hkept.
Qed.

Lemma not_blank_placeholder i : not_blank (placeholder i) = true.
Proof.
  unfold placeholder. cbn [not_blank]. apply negb_true_iff, String.eqb_neq.
  by apply strip_U.
Qed.

Lemma not_blank_clean_name i c : not_blank (clean_name i c) = true.
Proof.
  destruct c as [v|]; cbn; [|apply not_blank_placeholder].
  destruct (not_blank v) eqn:E; [done | apply not_blank_placeholder].
Qed.

(** X2: no key that the sanitization yields is blank: a key is a name that
    was kept, or a placeholder, and neither is empty after trimming. *)
Theorem sanitized_keys_are_not_blank names k :
  k ∈ cleaned_teacher_names names → not_blank k = true.
Proof.
  intros Hk. apply list_elem_of_lookup_1 in Hk as [i Hi].
  rewrite lookup_cleaned_teacher_names in Hi.
  destruct (names !! i) as [c|]; [|done].
  injection Hi as <-. apply not_blank_clean_name.
Qed.

Lemma sanitized_keys_are_not_blank_witness :
  not_blank (Text "Unnamed_Teacher_1") = true.
Proof.
  apply (sanitized_keys_are_not_blank [txt "Alice"; txt "  "; None]).
  apply elem_of_cons. right. apply elem_of_cons. left. reflexivity.
Defined.

(** ** Empty sheets (lines 32-34) *)

Lemma process_sheet_outcome sheet d w :
  (process_sheet sheet d w).2
  = if df_empty sheet.2 then Ret d else add_sheet sheet.2 d.
Proof. destruct sheet as [name df]. cbn. by destruct (df_empty df). Qed.

Lemma process_sheets_outcome wb d w :
  (process_sheets wb d w).2 = sheets_outcome wb d.
Proof.
  unfold sheets_outcome. revert d w.
  induction wb as [|sheet wb IH]; intros d w; [done |].
  cbn [process_sheets for_each]. rewrite M_bind_eq.
  pose proof (process_sheet_outcome sheet d w) as Hout.
  destruct (process_sheet sheet d w) as [w1 [d1|e]]; cbn in Hout;
    rewrite <- Hout; [apply IH | done].
Qed.

Lemma process_sheets_no_empty wb d w :
  Forall (λ sheet : string * DataFrame, df_empty sheet.2 = false) wb →
  process_sheets wb d w = (w, sheets_outcome wb d).
Proof.
  unfold sheets_outcome. intros Hall. revert d w.
  induction Hall as [|[name df] wb Hne _ IH]; intros d w; [done |].
  cbn [process_sheets for_each snd]. rewrite M_bind_eq.
  unfold process_sheet. cbn in Hne. rewrite Hne. unfold lift.
  destruct (add_sheet df d) as [d1|e]; [apply IH | done].
Qed.

Lemma non_empty_sheets_cons sheet wb :
  non_empty_sheets (sheet :: wb)
  = if df_empty sheet.2 then non_empty_sheets wb
    else sheet :: non_empty_sheets wb.
Proof.
  unfold non_empty_sheets. rewrite filter_cons.
  destruct (df_empty sheet.2); by case_decide.
Qed.

Lemma sheets_outcome_non_empty wb d :
  sheets_outcome (non_empty_sheets wb) d = sheets_outcome wb d.
Proof.
  revert d. induction wb as [|sheet wb IH]; intros d; [done |].
  rewrite non_empty_sheets_cons. unfold sheets_outcome in *.
  cbn [for_each]. destruct (df_empty sheet.2) eqn:E.
  - apply IH.
  - cbn [for_each]. rewrite E.
    destruct (add_sheet sheet.2 d) as [d1|e]; [apply IH | done].
Qed.

(** X3: an empty sheet contributes nothing but its warning: on the workbook
    without its empty sheets the loop prints nothing and ends as it does on
    the whole workbook, with the same dictionary or the same exception. *)
Theorem empty_sheets_only_warn wb d w :
  process_sheets (non_empty_sheets wb) d w = (w, (process_sheets wb d w).2).
Proof.
  rewrite process_sheets_outcome, <- sheets_outcome_non_empty.
  apply process_sheets_no_empty. unfold non_empty_sheets.
  apply Forall_forall. intros sheet Hsheet.
  by apply list_elem_of_filter in Hsheet as [? _].
Qed.

(** ** The order of the sheets (lines 31-66) *)

Lemma concat_fmap_Permutation {A B} (f : A → list B) (l l' : list A) :
  l ≡ₚ l' → concat (f <$> l) ≡ₚ concat (f <$> l').
Proof.
  induction 1 as [|x l l' _ IH|x y l|l1 l2 l3 _ IH1 _ IH2]; cbn.
  - done.
  - by rewrite IH.
  - rewrite !app_assoc. f_equiv. apply Permutation_app_comm.
  - by etrans.
Qed.

Lemma all_names_Permutation wb wb' : wb ≡ₚ wb' → all_names wb ≡ₚ all_names wb'.
Proof. apply concat_fmap_Permutation. Qed.

Lemma workbook_scores_Permutation k wb wb' :
  wb ≡ₚ wb' → workbook_scores k wb ≡ₚ workbook_scores k wb'.
Proof. apply concat_fmap_Permutation. Qed.

(** X4: the order of the sheets decides nothing but the order of things.
    When the loop returns on a workbook it returns on the same sheets in any
    other order, with the same teachers and, for each teacher, the same
    scores up to their order. *)
Theorem sheet_order_permutes_only wb wb' w w1 d :
  wb ≡ₚ wb' →
  process_sheets wb [] w = (w1, Ret d) →
  ∃ w1' d',
    process_sheets wb' [] w = (w1', Ret d') ∧
    keys d' ≡ₚ keys d ∧
    ∀ k, scores_of k d' ≡ₚ scores_of k d.
Proof.
  intros Hperm Hrun.
  pose proof (process_sheets_Ret _ _ _ _ _ Hrun) as Hall.
  apply process_sheets_Ret_eq in Hrun as [-> ->].
  assert (Forall (λ sheet : string * DataFrame, NoDup (sheet_names sheet.2)) wb')
    as Hall' by by rewrite <- Hperm.
  exists (log (warnings wb') w), (aggregate wb' []).
  split_and!.
  - by apply process_sheets_ok.
  - apply NoDup_Permutation; [apply NoDup_keys_aggregate.. |].
    intros k. rewrite !keys_aggregate, !elem_of_foldl_add_key.
    by rewrite (all_names_Permutation wb wb' Hperm).
  - intros k. rewrite !scores_of_aggregate_nil by done.
    symmetry. by apply workbook_scores_Permutation.
Qed.

Lemma sheet_order_permutes_only_witness :
  let d :=
    [(Text "Alice", [Number (Qc_of_Z 5); Number (Qc_of_Z 7); Number (Qc_of_Z 3)]);
     (Text "Bob", [Number (Qc_of_Z 9); Number (Qc_of_Z 10)])] in
  ∃ w1' d',
    process_sheets (reverse two_sheets) [] start = (w1', Ret d') ∧
    keys d' ≡ₚ keys d ∧
    ∀ k, scores_of k d' ≡ₚ scores_of k d.
Proof.
  intros d.
  apply (sheet_order_permutes_only two_sheets (reverse two_sheets) start start d).
  - apply Permutation_swap.
  - reflexivity.
Defined.

(** ** Ends of the run (lines 68-97) *)

Lemma elem_of_workbook_scores k wb sheet v :
  sheet ∈ wb → v ∈ sheet_scores k sheet.2 → v ∈ workbook_scores k wb.
Proof.
  intros Hsheet Hv. apply elem_of_concat. exists (sheet_scores k sheet.2).
  split; [done |]. apply list_elem_of_fmap. by exists sheet.
Qed.

(** A present cell of a column is among the scores of the column's teacher. *)
Lemma cell_is_collected wb sheet j k v :
  Forall (λ sheet : string * DataFrame, NoDup (sheet_names sheet.2)) wb →
  sheet ∈ wb →
  sheet_names sheet.2 !! j = Some k →
  Some v ∈ column j (iloc_1_ sheet.2) →
  v ∈ scores_of k (aggregate wb []).
Proof.
  intros Hall Hsheet Hj Hv. rewrite scores_of_aggregate_nil by done.
  apply (elem_of_workbook_scores k wb sheet); [done |].
  rewrite (sheet_scores_series k sheet.2 j); [by apply elem_of_dropna | | done].
  by apply (proj1 (Forall_forall _ _) Hall sheet).
Qed.

Section Ends.

Context {arith : Arithmetic}.
Variable read_excel : string → read_result.
Variable sort_values : list (value * pynum) → list (value * pynum).
Variable to_excel : string → list ranking_row → option string.
Variable read_back : string → read_back_result.

Hypothesis sort_values_perm : ∀ rows, sort_values rows ≡ₚ rows.

Local Abbreviation export := (rank_and_export sort_values to_excel).

Lemma rank_and_export_avg_Raise d output w e :
  d ≠ [] → teacher_avg_scores d = Raise e → export d output w = (w, Raise e).
Proof.
  intros Hd Havg. destruct d as [|entry d]; [done |].
  unfold rank_and_export. rewrite M_bind_eq. unfold lift. by rewrite Havg.
Qed.

Lemma rank_and_export_Raise d output w w' e :
  export d output w = (w', Raise e) → e = TypeError ∧ w' = w.
Proof.
  destruct d as [|entry d]; [done |].
  unfold rank_and_export. rewrite M_bind_eq. unfold lift.
  destruct (teacher_avg_scores (entry :: d)) as [avg|e'] eqn:Havg.
  - by destruct (to_excel output (add_rank (sort_values avg))).
  - intros [= <- <-]. by apply teacher_avg_scores_Raise in Havg.
Qed.

Lemma rank_and_export_write_fails d output avg e w :
  d ≠ [] →
  teacher_avg_scores d = Ret avg →
  to_excel output (add_rank (sort_values avg)) = Some e →
  export d output w = (log [OutputWriteError e] w, Ret false).
Proof.
  intros Hd Havg Hwrite. destruct d as [|entry d]; [done |].
  unfold rank_and_export. rewrite M_bind_eq. unfold lift. rewrite Havg.
  by rewrite Hwrite.
Qed.

(** X5: when the table cannot be written the run prints the error of the
    write after the warnings, returns [False] and leaves no file. *)
Theorem write_failure_returns_false input output wb e w :
  read_excel input = Sheets wb →
  Forall (λ sheet : string * DataFrame, valid_sheet sheet.2) wb →
  all_names wb ≠ [] →
  (∀ table, to_excel output table = Some e) →
  create_teacher_ranking_excel read_excel sort_values to_excel input output w
  = (log (warnings wb ++ [OutputWriteError e]) w, Ret false).
Proof.
  intros Hread Hvalid Hnames Hwrite.
  assert (Forall (λ sheet : string * DataFrame, NoDup (sheet_names sheet.2)) wb)
    as Hnd by (eapply Forall_impl; [done |]; by intros sheet [? _]).
  destruct (teacher_avg_scores_numbers _ (aggregate_numbers wb Hvalid))
    as [avg Havg].
  rewrite (run_sheets _ _ _ _ _ _ _ Hread), (process_sheets_ok wb [] w Hnd).
  rewrite (rank_and_export_write_fails _ output avg e);
    [by rewrite log_log | by apply aggregate_not_nil | done | apply Hwrite].
Qed.

(** X6: a text in the score region of a column stops the run at [sum]:
    when the keys of every sheet are distinct, the run raises [TypeError]
    and writes no file. *)
Theorem text_score_raises_TypeError input output wb sheet j k s w :
  read_excel input = Sheets wb →
  Forall (λ sheet : string * DataFrame, NoDup (sheet_names sheet.2)) wb →
  sheet ∈ wb →
  sheet_names sheet.2 !! j = Some k →
  Some (Text s) ∈ column j (iloc_1_ sheet.2) →
  create_teacher_ranking_excel read_excel sort_values to_excel input output w
  = (log (warnings wb) w, Raise TypeError).
Proof.
  intros Hread Hall Hsheet Hj Hs.
  rewrite (run_sheets _ _ _ _ _ _ _ Hread), (process_sheets_ok wb [] w Hall).
  pose proof (cell_is_collected wb sheet j k _ Hall Hsheet Hj Hs) as Hin.
  destruct (teacher_avg_scores (aggregate wb [])) as [avg|e] eqn:Havg.
  - exfalso. apply (averaged_scores_are_numbers _ _ k) in Havg.
    apply (proj1 (Forall_forall _ _) Havg) in Hin. done.
  - pose proof (teacher_avg_scores_Raise _ _ Havg) as ->.
    apply rank_and_export_avg_Raise; [|done].
    intros Hnil. rewrite Hnil in Hin. by apply not_elem_of_nil in Hin.
Qed.

(** X7: the run raises nothing but [AttributeError] and [TypeError], and a
    run that raises has written no file. *)
Theorem run_raises_only input output w w' e :
  create_teacher_ranking_excel read_excel sort_values to_excel input output w
  = (w', Raise e) →
  (e = AttributeError ∨ e = TypeError) ∧ files w' = files w.
Proof.
  destruct (read_excel input) as [| e' |wb] eqn:Hread.
  - unfold create_teacher_ranking_excel. by rewrite Hread.
  - unfold create_teacher_ranking_excel. by rewrite Hread.
  - rewrite (run_sheets _ _ _ _ _ _ _ Hread).
    destruct (process_sheets wb [] w) as [w1 [d|e1]] eqn:Hagg.
    + intros Hexp. apply rank_and_export_Raise in Hexp as [-> ->].
      apply process_sheets_Ret_eq in Hagg as [-> _]. by split; [right |].
    + intros [= <- <-]. apply process_sheets_Raise in Hagg as [-> ?].
      by split; [left |].
Qed.

(** X8: the run raises [AttributeError] exactly when some sheet has two
    columns with the same key. *)
Theorem AttributeError_iff_repeated_key input output wb w :
  read_excel input = Sheets wb →
  (∃ w', create_teacher_ranking_excel read_excel sort_values to_excel
           input output w = (w', Raise AttributeError)) ↔
  ¬ Forall (λ sheet : string * DataFrame, NoDup (sheet_names sheet.2)) wb.
Proof.
  intros Hread. rewrite (run_sheets _ _ _ _ _ _ _ Hread). split.
  - intros [w' Hrun] Hall. rewrite (process_sheets_ok wb [] w Hall) in Hrun.
    by apply rank_and_export_Raise in Hrun as [? _].
  - intros Hdup. destruct (process_sheets wb [] w) as [w1 [d|e]] eqn:Hagg.
    + exfalso. by apply Hdup, (process_sheets_Ret _ _ _ _ _ Hagg).
    + apply process_sheets_Raise in Hagg as [-> _]. by exists w1.
Qed.

(** X9: a file is written by the runs that return [True] and by no other:
    such a run adds one file, at the output path; a run that returns [False]
    or raises leaves the files as they were. *)
Theorem file_written_iff_True input output w w' r :
  create_teacher_ranking_excel read_excel sort_values to_excel input output w
  = (w', r) →
  (r = Ret true → ∃ table, files w' = files w ++ [(output, table)]) ∧
  (r ≠ Ret true → files w' = files w).
Proof.
  intros Hrun. destruct r as [[|]|e].
  - split; [intros _ | done].
    apply run_true in Hrun as (wb & avg & _ & _ & _ & _ & ->). by eexists.
  - split; [done | intros _].
    destruct (read_excel input) as [| e' |wb] eqn:Hread.
    + unfold create_teacher_ranking_excel in Hrun. rewrite Hread in Hrun.
      by injection Hrun as <-.
    + unfold create_teacher_ranking_excel in Hrun. rewrite Hread in Hrun.
      by injection Hrun as <-.
    + rewrite (run_sheets _ _ _ _ _ _ _ Hread) in Hrun.
      destruct (process_sheets wb [] w) as [w1 [d|e1]] eqn:Hagg; [|done].
      apply rank_and_export_files in Hrun; [|done].
      apply process_sheets_Ret_eq in Hagg as [-> _]. by rewrite Hrun.
  - split; [done | intros _]. by apply run_raises_only in Hrun as [_ ?].
Qed.

(** X10: a run that returns [True] has met distinct keys in every sheet and,
    in the score region of every column, nothing but numbers and empty
    cells. *)
Theorem True_only_on_clean_input input output wb w w' sheet :
  read_excel input = Sheets wb →
  create_teacher_ranking_excel read_excel sort_values to_excel input output w
  = (w', Ret true) →
  sheet ∈ wb →
  NoDup (sheet_names sheet.2) ∧
  ∀ j k, sheet_names sheet.2 !! j = Some k →
         Forall numeric_or_empty (column j (iloc_1_ sheet.2)).
Proof.
  intros Hread Hrun Hsheet.
  apply run_true in Hrun as (wb' & avg & Hread' & Hagg & _ & Havg & _).
  assert (wb' = wb) as -> by congruence.
  apply process_sheets_Ret in Hagg.
  split; [by apply (proj1 (Forall_forall _ _) Hagg sheet) |].
  intros j k Hj. apply Forall_forall. intros [[x|s]|] Hc; [done | | done].
  pose proof (cell_is_collected wb sheet j k _ Hagg Hsheet Hj Hc) as Hin.
  apply (averaged_scores_are_numbers _ _ k) in Havg.
  apply (proj1 (Forall_forall _ _) Havg) in Hin. done.
Qed.

(** X11: the table of a run that returns [True] names every teacher of the
    workbook once and no one else. *)
Theorem every_teacher_once input output wb w w' :
  read_excel input = Sheets wb →
  create_teacher_ranking_excel read_excel sort_values to_excel input output w
  = (w', Ret true) →
  ∃ table,
    files w' = files w ++ [(output, table)] ∧
    NoDup (Teacher <$> table) ∧
    ∀ k, k ∈ Teacher <$> table ↔ k ∈ all_names wb.
Proof using sort_values_perm.
  intros Hread Hrun.
  apply run_true in Hrun as (wb' & avg & Hread' & _ & _ & Havg & ->).
  assert (wb' = wb) as -> by congruence.
  exists (add_rank (sort_values avg)).
  assert (Teacher <$> add_rank (sort_values avg) ≡ₚ first_seen (all_names wb))
    as Hperm.
  { rewrite Teacher_add_rank, (sort_values_perm avg).
    rewrite (teacher_avg_scores_keys _ _ Havg). by rewrite keys_aggregate. }
  split_and!; [done | |].
  - rewrite Hperm. apply NoDup_first_seen.
  - intros k. by rewrite Hperm, elem_of_first_seen.
Qed.

(** X12: what the script shows for a run, by what the function returned.
    After [False] it prints that no ranking was made, and there is no new
    file.  After [True] it prints its header and then the frame read back
    from [output_file], or the error of that read when it fails, and the new
    file is at [output_file].  An exception of the function goes through the
    script, which then prints nothing; the error of reading back never
    does. *)
Theorem script_shows_the_outcome w w' lines r :
  main read_excel sort_values to_excel read_back w = (w', lines, r) →
  ∃ result,
    create_teacher_ranking_excel read_excel sort_values to_excel
      input_file output_file w = (w', result) ∧
    ((result = Ret false ∧ r = Ret tt ∧ lines = [NoRanking] ∧
      files w' = files w) ∨
     (result = Ret true ∧ r = Ret tt ∧
      (∃ shown table,
         lines = [ContentHeader; shown] ∧
         (∀ df, read_back output_file = Generated df → shown = Content df) ∧
         (∀ e, read_back output_file = ReadBackException e →
               shown = ContentReadError e) ∧
         files w' = files w ++ [(output_file, table)])) ∨
     (∃ e, result = Raise e ∧ r = Raise e ∧
           (e = AttributeError ∨ e = TypeError) ∧
           lines = [] ∧ files w' = files w)).
Proof.
  unfold main.
  destruct (create_teacher_ranking_excel read_excel sort_values to_excel
              input_file output_file w) as [w1 [[|]|e]] eqn:Hrun;
    intros [= <- <- <-].
  - exists (Ret true). split; [done |]. right. left. split_and!; [done.. |].
    apply file_written_iff_True in Hrun as [Hfile _].
    destruct (Hfile eq_refl) as [table Htable].
    eexists _, table. split_and!; [done | | | done].
    + intros df Hdf. by rewrite Hdf.
    + intros e He. by rewrite He.
  - exists (Ret false). split; [done |]. left.
    apply file_written_iff_True in Hrun as [_ Hfile].
    split_and!; [done.. |]. by apply Hfile.
  - exists (Raise e). split; [done |]. right. right. exists e.
    apply run_raises_only in Hrun as [? ?]. done.
Qed.

End Ends.

(** ** The further properties on examples *)

Lemma write_failure_returns_false_witness :
  create_teacher_ranking_excel (arith := exact_arithmetic)
      (one_workbook two_sheets) merge_sort_desc
    (never_writes "disk full") "in.xlsx" "out.xlsx" start
  = (log (warnings two_sheets ++ [OutputWriteError "disk full"]) start, Ret false).
Proof.
  apply (write_failure_returns_false (arith := exact_arithmetic) (one_workbook two_sheets) merge_sort_desc
           (never_writes "disk full") "in.xlsx" "out.xlsx" two_sheets
           "disk full" start).
  - reflexivity.
  - apply Forall_cons_2; [|apply Forall_cons_2; [|apply Forall_nil_2]];
      apply valid_sheet_decide; apply (bool_decide_unpack _); vm_compute; exact I.
  - vm_compute. discriminate.
  - reflexivity.
Defined.

Lemma text_score_raises_TypeError_witness :
  run_on alice_with_text = (log (warnings alice_with_text) start, Raise TypeError).
Proof.
  apply (text_score_raises_TypeError (arith := exact_arithmetic) (one_workbook alice_with_text)
           merge_sort_desc always_writes "in.xlsx" "out.xlsx" alice_with_text
           ("9-A", [[txt "Alice"]; [num 5]; [txt "abc"]]) 0 (Text "Alice") "abc"
           start).
  - reflexivity.
  - apply (bool_decide_unpack _). vm_compute. exact I.
  - apply elem_of_cons. left. reflexivity.
  - reflexivity.
  - apply (list_elem_of_lookup_2 _ 1). reflexivity.
Defined.

Lemma run_raises_only_witness :
  (AttributeError = AttributeError ∨ AttributeError = TypeError) ∧
  files (run_on alice_twice).1 = files start.
Proof.
  apply (run_raises_only (arith := exact_arithmetic) (one_workbook alice_twice) merge_sort_desc
           always_writes "in.xlsx" "out.xlsx" start).
  reflexivity.
Defined.

Lemma AttributeError_iff_repeated_key_witness :
  (∃ w', run_on alice_twice = (w', Raise AttributeError)) ↔
  ¬ Forall (λ sheet : string * DataFrame, NoDup (sheet_names sheet.2)) alice_twice.
Proof.
  apply (AttributeError_iff_repeated_key (arith := exact_arithmetic) (one_workbook alice_twice)
           merge_sort_desc always_writes "in.xlsx" "out.xlsx" alice_twice start).
  reflexivity.
Defined.

Lemma file_written_iff_True_witness :
  (Ret true = Ret true →
   ∃ table, files (run_on alice_and_bob).1 = files start ++ [("out.xlsx", table)]) ∧
  (Ret true ≠ Ret true → files (run_on alice_and_bob).1 = files start).
Proof.
  apply (file_written_iff_True (arith := exact_arithmetic) (one_workbook alice_and_bob) merge_sort_desc
           always_writes "in.xlsx" "out.xlsx" start).
  reflexivity.
Defined.

Lemma True_only_on_clean_input_witness :
  NoDup (sheet_names [[txt "Alice"; txt "Bob"]; [num 5; num 9]; [num 7; None]]) ∧
  ∀ j k,
    sheet_names [[txt "Alice"; txt "Bob"]; [num 5; num 9]; [num 7; None]] !! j
    = Some k →
    Forall numeric_or_empty (column j [[num 5; num 9]; [num 7; None]]).
Proof.
  apply (True_only_on_clean_input (arith := exact_arithmetic) (one_workbook alice_and_bob) merge_sort_desc
           always_writes "in.xlsx" "out.xlsx" alice_and_bob start
           (run_on alice_and_bob).1
           ("9-A", [[txt "Alice"; txt "Bob"]; [num 5; num 9]; [num 7; None]])).
  - reflexivity.
  - reflexivity.
  - apply elem_of_cons. left. reflexivity.
Defined.

Lemma every_teacher_once_witness :
  ∃ table,
    files (run_on two_sheets).1 = files start ++ [("out.xlsx", table)] ∧
    NoDup (Teacher <$> table) ∧
    ∀ k, k ∈ Teacher <$> table ↔ k ∈ all_names two_sheets.
Proof.
  apply (every_teacher_once (arith := exact_arithmetic) (one_workbook two_sheets) merge_sort_desc
           always_writes merge_sort_desc_perm "in.xlsx" "out.xlsx" two_sheets
           start).
  - reflexivity.
  - reflexivity.
Defined.

Lemma script_shows_the_outcome_witness :
  let run :=
    create_teacher_ranking_excel (arith := exact_arithmetic) script_workbook
      merge_sort_desc always_writes input_file output_file start in
  let w' := run.1 in
  let lines := [ContentHeader; ContentReadError "no reader"] in
  let r := Ret tt in
  ∃ result,
    run = (w', result) ∧
    ((result = Ret false ∧ r = Ret tt ∧ lines = [NoRanking] ∧
      files w' = files start) ∨
     (result = Ret true ∧ r = Ret tt ∧
      (∃ shown table,
         lines = [ContentHeader; shown] ∧
         (∀ df, cannot_read_back output_file = Generated df → shown = Content df) ∧
         (∀ e, cannot_read_back output_file = ReadBackException e →
               shown = ContentReadError e) ∧
         files w' = files start ++ [(output_file, table)])) ∨
     (∃ e, result = Raise e ∧ r = Raise e ∧
           (e = AttributeError ∨ e = TypeError) ∧
           lines = [] ∧ files w' = files start)).
Proof.
  intros run w' lines r.
  apply (script_shows_the_outcome (arith := exact_arithmetic) script_workbook
           merge_sort_desc always_writes cannot_read_back start w' lines r).
  reflexivity.
Defined.

(** The script on the workbook of the spec's scenario, with a read back that
    fails: the file is written all the same and the script ends normally. *)
Example script_on_alice_and_bob :
  let '(w', lines, r) :=
    main (arith := exact_arithmetic) script_workbook merge_sort_desc always_writes
      cannot_read_back start in
  console w' = [Saved output_file] ∧
  lines = [ContentHeader; ContentReadError "no reader"] ∧
  r = Ret tt.
Proof. vm_compute. done. Qed.
